(** * MPIPE over I2C on the CC430: the protocol state machine

    A shallow embedding of [otplatform/cc430/mpipe_CC430_i2c.c] and the
    properties of its session state machine.

    Build configuration embedded here: [PLATFORM_FEATURE_USBCONVERTER] is not
    enabled (the session has [ackbuf] and [priority]), [MPIPE_CALLBACKS] and
    [MPIPEDMA] are enabled.

    The single global [mpipe] becomes a value threaded through every function.
    RAM is a byte-addressed store; [mpipe.ackbuf] lives in it at the address
    [ackbuf], the other members of the struct are record fields.  The USCI and
    DMA registers the code writes are the fields of [periph]; port mapping,
    clock and address registers, which only [mpipe_init] writes, and the
    low-power mode of the processor ([SLEEP_MCU], [LPM4_EXIT]) are left out.
    Interrupt routines run to completion, one at a time. *)

From Stdlib Require Import ZArith List Bool Lia.
Import ListNotations.
Local Open Scope Z_scope.

Module Mpipe.

(** ** Integer types *)

Definition u8 (z : Z) : Z := z mod 256.
Definition u16 (z : Z) : Z := z mod 65536.

(** [ot_int] is a 16-bit signed integer on this target. *)
Definition s16 (z : Z) : Z := (z + 32768) mod 65536 - 32768.

(** [Twobytes] is a union of one [ot_u16] and two [ot_u8]; a value of it is
    the 16-bit number, [ubyte[UPPER]] its high byte and [ubyte[LOWER]] its low
    byte. *)
Definition Twobytes := Z.
Definition ubyte_UPPER (t : Twobytes) : Z := (t / 256) mod 256.
Definition ubyte_LOWER (t : Twobytes) : Z := t mod 256.
Definition set_ubyte_UPPER (t : Twobytes) (b : Z) : Twobytes :=
  u8 b * 256 + ubyte_LOWER t.
Definition set_ubyte_LOWER (t : Twobytes) (b : Z) : Twobytes :=
  ubyte_UPPER t * 256 + u8 b.

(** ** Declarations of mpipe.h *)

(** Modelled from the spec: mpipe.h is not among the sources; the protocol
    phases are the eight states the state machine switches on, in the order
    that makes [mpipe.state++] take a wait state to its done state. *)
Inductive mpipe_state :=
| MPIPE_Idle
| MPIPE_RxHeader
| MPIPE_RxPayload
| MPIPE_TxAck_Wait
| MPIPE_TxAck_Done
| MPIPE_Tx_Wait
| MPIPE_Tx_Done
| MPIPE_RxAck.

(** Modelled from the spec: mpipe.h is not among the sources; the kinds of
    transfer are the ones the source names. *)
Inductive mpipe_priority :=
| MPIPE_Low
| MPIPE_Broadcast
| MPIPE_Ack.

Definition state_eqb (a b : mpipe_state) : bool :=
  match a, b with
  | MPIPE_Idle, MPIPE_Idle
  | MPIPE_RxHeader, MPIPE_RxHeader
  | MPIPE_RxPayload, MPIPE_RxPayload
  | MPIPE_TxAck_Wait, MPIPE_TxAck_Wait
  | MPIPE_TxAck_Done, MPIPE_TxAck_Done
  | MPIPE_Tx_Wait, MPIPE_Tx_Wait
  | MPIPE_Tx_Done, MPIPE_Tx_Done
  | MPIPE_RxAck, MPIPE_RxAck => true
  | _, _ => false
  end.

Definition priority_eqb (a b : mpipe_priority) : bool :=
  match a, b with
  | MPIPE_Low, MPIPE_Low
  | MPIPE_Broadcast, MPIPE_Broadcast
  | MPIPE_Ack, MPIPE_Ack => true
  | _, _ => false
  end.

(** A signal is a pointer to a function of one [ot_int]: the empty
    [sub_signull] of this file, or a function of the application. *)
Inductive sigfn :=
| sub_signull
| app_signal (id : Z).

(** ** The module data *)

Record mpipe_struct := Build_mpipe {
  priority     : mpipe_priority;
  state        : mpipe_state;
  sequence     : Twobytes;
  pktbuf       : Z;
  pktlen       : Z;
  sig_rxdone   : sigfn;
  sig_txdone   : sigfn;
  sig_rxdetect : sigfn
}.

(** ** RAM *)

Definition memory := Z -> Z.

Definition load (m : memory) (a : Z) : Z := u8 (m a).

Definition store (m : memory) (a v : Z) : memory :=
  fun x => if x =? a then u8 v else m x.

(** The [len] bytes from address [p] on. *)
Definition read_block (m : memory) (p len : Z) : list Z :=
  map (fun i => load m (p + Z.of_nat i)) (seq 0 (Z.to_nat len)).

(** ** Peripheral registers *)

(** What the DMA channel of the pipe is set up for: [MPIPE_DMA_RXCONFIG]
    moves [SZ] bytes from the receive register to [DA], [MPIPE_DMA_TXCONFIG]
    moves [SZ] bytes from [SA] to the transmit register.  The trigger
    selection in [DMA->CTL0] or [DMA->CTL1] and the options in [DMA->CTL4],
    which the code writes just before, go with the direction. *)
Inductive dma_setup :=
| DMA_unset
| DMA_RX (da sz : Z)
| DMA_TX (sa sz : Z).

Record periph := Build_periph {
  dma_cfg    : dma_setup;
  dma_en     : bool;     (* bit 0x0010 of the channel's CTL *)
  usci_open  : bool;     (* UCSWRST cleared *)
  usci_txie  : bool;     (* IE = UCTXIE *)
  usci_txifg : bool;
  usci_rxifg : bool
}.

(** The machine: the module data, RAM, the registers, and the calls made to
    functions of the application (newest first). *)
Record machine := Build_machine {
  mpipe     : mpipe_struct;
  ram       : memory;
  io        : periph;
  signalled : list (Z * Z)
}.

(** *** Assignments *)

Definition with_mpipe (f : mpipe_struct -> mpipe_struct) (w : machine) : machine :=
  Build_machine (f (mpipe w)) (ram w) (io w) (signalled w).

Definition with_io (f : periph -> periph) (w : machine) : machine :=
  Build_machine (mpipe w) (ram w) (f (io w)) (signalled w).

Definition set_priority (v : mpipe_priority) : machine -> machine :=
  with_mpipe (fun s => Build_mpipe v (state s) (sequence s) (pktbuf s) (pktlen s)
                         (sig_rxdone s) (sig_txdone s) (sig_rxdetect s)).

Definition set_state (v : mpipe_state) : machine -> machine :=
  with_mpipe (fun s => Build_mpipe (priority s) v (sequence s) (pktbuf s) (pktlen s)
                         (sig_rxdone s) (sig_txdone s) (sig_rxdetect s)).

Definition set_sequence (v : Twobytes) : machine -> machine :=
  with_mpipe (fun s => Build_mpipe (priority s) (state s) v (pktbuf s) (pktlen s)
                         (sig_rxdone s) (sig_txdone s) (sig_rxdetect s)).

Definition set_pktbuf (v : Z) : machine -> machine :=
  with_mpipe (fun s => Build_mpipe (priority s) (state s) (sequence s) v (pktlen s)
                         (sig_rxdone s) (sig_txdone s) (sig_rxdetect s)).

Definition set_pktlen (v : Z) : machine -> machine :=
  with_mpipe (fun s => Build_mpipe (priority s) (state s) (sequence s) (pktbuf s) v
                         (sig_rxdone s) (sig_txdone s) (sig_rxdetect s)).

Definition set_sig_rxdone (v : sigfn) : machine -> machine :=
  with_mpipe (fun s => Build_mpipe (priority s) (state s) (sequence s) (pktbuf s) (pktlen s)
                         v (sig_txdone s) (sig_rxdetect s)).

Definition set_sig_txdone (v : sigfn) : machine -> machine :=
  with_mpipe (fun s => Build_mpipe (priority s) (state s) (sequence s) (pktbuf s) (pktlen s)
                         (sig_rxdone s) v (sig_rxdetect s)).

Definition set_sig_rxdetect (v : sigfn) : machine -> machine :=
  with_mpipe (fun s => Build_mpipe (priority s) (state s) (sequence s) (pktbuf s) (pktlen s)
                         (sig_rxdone s) (sig_txdone s) v).

(** [p[0] = v] *)
Definition poke (p v : Z) (w : machine) : machine :=
  Build_machine (mpipe w) (store (ram w) p v) (io w) (signalled w).

(** [f(arg)] through a signal pointer.  [sub_signull] has an empty body; a
    function of the application is recorded as called, and is taken not to
    call back into the module. *)
Definition call_signal (f : sigfn) (arg : Z) (w : machine) : machine :=
  match f with
  | sub_signull => w
  | app_signal id => Build_machine (mpipe w) (ram w) (io w) ((id, arg) :: signalled w)
  end.

(** *** The register macros *)

Definition UART_CLOSE : machine -> machine :=
  with_io (fun p => Build_periph (dma_cfg p) (dma_en p) false (usci_txie p)
                      (usci_txifg p) (usci_rxifg p)).

Definition UART_OPEN : machine -> machine :=
  with_io (fun p => Build_periph (dma_cfg p) (dma_en p) true (usci_txie p)
                      (usci_txifg p) (usci_rxifg p)).

Definition UART_SET_TXIFG : machine -> machine :=
  with_io (fun p => Build_periph (dma_cfg p) (dma_en p) (usci_open p) (usci_txie p)
                      true (usci_rxifg p)).

Definition UART_CLEAR_TXIFG : machine -> machine :=
  with_io (fun p => Build_periph (dma_cfg p) (dma_en p) (usci_open p) (usci_txie p)
                      false (usci_rxifg p)).

Definition UART_CLEAR_RXIFG : machine -> machine :=
  with_io (fun p => Build_periph (dma_cfg p) (dma_en p) (usci_open p) (usci_txie p)
                      (usci_txifg p) false).

(** [MPIPE_I2C->IE = UCTXIE] and [MPIPE_I2C->IE = 0]. *)
Definition set_IE (txie : bool) : machine -> machine :=
  with_io (fun p => Build_periph (dma_cfg p) (dma_en p) (usci_open p) txie
                      (usci_txifg p) (usci_rxifg p)).

Definition MPIPE_DMAEN_OFF : machine -> machine :=
  with_io (fun p => Build_periph (dma_cfg p) false (usci_open p) (usci_txie p)
                      (usci_txifg p) (usci_rxifg p)).

(** [MPIPE_DMA_RXCONFIG(DEST, SIZE, ON)]; [SZ] is a 16-bit register. *)
Definition MPIPE_DMA_RXCONFIG_ON (dest size : Z) : machine -> machine :=
  with_io (fun p => Build_periph (DMA_RX dest (u16 size)) true (usci_open p) (usci_txie p)
                      (usci_txifg p) (usci_rxifg p)).

(** [MPIPE_DMA_TXCONFIG(SOURCE, SIZE, ON)]. *)
Definition MPIPE_DMA_TXCONFIG_ON (source size : Z) : machine -> machine :=
  with_io (fun p => Build_periph (DMA_TX source (u16 size)) true (usci_open p) (usci_txie p)
                      (usci_txifg p) (usci_rxifg p)).

Notation "w |> f" := (f w) (at level 45, left associativity, only parsing).

Definition MPIPE_DMA_TXTRIGGER (w : machine) : machine :=
  w |> UART_CLEAR_TXIFG |> UART_SET_TXIFG.

(** Modelled from the spec: [I2C_OPEN] and [I2C_CLEAR_RXIFG] are used by the
    source but defined in none of its files; they are taken as the transceiver
    operations of the same names that this file defines for [UART_]. *)
Definition I2C_OPEN : machine -> machine := UART_OPEN.
Definition I2C_CLEAR_RXIFG : machine -> machine := UART_CLEAR_RXIFG.

Definition MPIPE_FOOTERBYTES : Z := 4.

(** What a call gives back to its caller: a value at once, or a value once
    [mpipe_wait] has seen the state return to [MPIPE_Idle] (the loop sleeps
    until interrupts have driven the state machine there). *)
Inductive returned :=
| Ret (v : Z)
| WaitIdle (v : Z).

Definition value_of (r : returned) : Z :=
  match r with Ret v | WaitIdle v => v end.

(** ** A platform for the examples *)

(** The theorems below hold for every checksum function.  The examples run
    the program with this one: the CRC-16 of polynomial 0x1021 and initial
    value 0xFFFF, most significant bit first. *)
Definition crc16_bit (c : Z) : Z :=
  if Z.testbit c 15 then u16 (Z.lxor (Z.shiftl c 1) 0x1021) else u16 (Z.shiftl c 1).

Definition crc16_byte (c b : Z) : Z :=
  let c := Z.lxor c (Z.shiftl (u8 b) 8) in
  crc16_bit (crc16_bit (crc16_bit (crc16_bit
    (crc16_bit (crc16_bit (crc16_bit (crc16_bit c))))))).

Definition crc16 (block : list Z) : Z := fold_left crc16_byte block 0xFFFF.

(** Where the examples place [mpipe.ackbuf], and where their caller's buffer
    is. *)
Definition ex_ackbuf : Z := 0x1C00.
Definition ex_buffer : Z := 0x1D00.

(** RAM holding [bytes] from address [p] on, and zero elsewhere. *)
Fixpoint ram_of (p : Z) (bytes : list Z) : memory :=
  match bytes with
  | [] => fun _ => 0
  | b :: bytes => fun x => if x =? p then u8 b else ram_of (p + 1) bytes x
  end.

Definition ex_io (cfg : dma_setup) : periph :=
  Build_periph cfg false true false false false.

Definition ex_machine (pr : mpipe_priority) (st : mpipe_state) (sq : Twobytes)
    (len : Z) (m : memory) (cfg : dma_setup) : machine :=
  Build_machine
    (Build_mpipe pr st sq ex_buffer len sub_signull sub_signull sub_signull)
    m (ex_io cfg) [].

(** A frame as it travels: header and payload, the two bytes of the
    sequence, the two bytes of the checksum of all that precedes. *)
Definition ex_frame (header_payload : list Z) (sq : Twobytes) : list Z :=
  let body := header_payload ++ [ubyte_UPPER sq; ubyte_LOWER sq] in
  body ++ [ubyte_UPPER (crc16 body); ubyte_LOWER (crc16 body)].

(** [bytes] written to RAM from address [p] on. *)
Fixpoint write_block (m : memory) (p : Z) (bytes : list Z) : memory :=
  match bytes with
  | [] => m
  | b :: bytes => write_block (store m p b) (p + 1) bytes
  end.

(** The bulk-transfer engine as the program sets it up in
    [MPIPE_DMA_RXCTL_ON]: single transfers of bytes, the source fixed and the
    destination incremented.  When the channel is set up to receive and
    enabled, the bytes that arrive land from [DA] on, [SZ] of them at most. *)
Definition dma_receive (bytes : list Z) (w : machine) : machine :=
  match dma_cfg (io w) with
  | DMA_RX da sz =>
    if dma_en (io w)
    then Build_machine (mpipe w) (write_block (ram w) da (firstn (Z.to_nat sz) bytes))
           (io w) (signalled w)
    else w
  | _ => w
  end.

(** ** The program *)

Section Program.

(** [platform_crc_block] belongs to the platform and is not among the
    sources: it is taken as a function of the bytes of the block.  Its result
    is an [ot_u16]. *)
Variable platform_crc_block : list Z -> Z.

(** The address of [mpipe.ackbuf]. *)
Variable ackbuf : Z.

(** [MPIPE_DMANUM], the DMA channel of the pipe (0, 1 or 2). *)
Variable MPIPE_DMANUM : Z.

Definition crc_block (w : machine) (block len : Z) : Z :=
  u16 (platform_crc_block (read_block (ram w) block len)).

Definition mpipe_footerbytes : Z := MPIPE_FOOTERBYTES.

Definition mpipe_setsig_txdone (signal : sigfn) : machine -> machine :=
  set_sig_txdone signal.

Definition mpipe_setsig_rxdone (signal : sigfn) : machine -> machine :=
  set_sig_rxdone signal.

Definition mpipe_setsig_rxdetect (signal : sigfn) : machine -> machine :=
  set_sig_rxdetect signal.

Definition sub_uart_portsetup : machine -> machine :=
  with_io (fun p => Build_periph (dma_cfg p) (dma_en p) (usci_open p) false false false).

(** [mpipe_init] returns 0.  The assignment to [mpipe.sequence] is commented
    out in the source, and so it is absent here. *)
Definition mpipe_init (w : machine) : Z * machine :=
  let w := w |> set_sig_rxdone sub_signull
             |> set_sig_txdone sub_signull
             |> set_sig_rxdetect sub_signull in
  let w := w |> set_priority MPIPE_Low in
  let w := w |> set_state MPIPE_Idle in
  let w := w |> sub_uart_portsetup in
  (* CTL1 = (UCSSEL_2 | UCSWRST) *)
  let w := w |> UART_CLOSE in
  (0, w).

Definition mpipe_status (w : machine) : mpipe_state := state (mpipe w).

Definition mpipe_txndef (data : Z) (blocking : bool) (data_priority : mpipe_priority)
    (w : machine) : returned * machine :=
  let data_length := load (ram w) (data + 2) + 6 in
  let guarded :=
    if negb (priority_eqb data_priority MPIPE_Ack) then
      if negb (state_eqb (state (mpipe w)) MPIPE_Idle) then None
      else Some (w |> set_priority data_priority
                   |> set_pktbuf data
                   |> set_pktlen data_length)
    else Some w in
  match guarded with
  | None => (Ret (-1), w)
  | Some w =>
    let w := w |> set_state MPIPE_Tx_Wait in
    let w := w |> MPIPE_DMAEN_OFF in
    (* add sequence id & crc to end of the datastream *)
    let w := w |> poke (data + data_length) (ubyte_UPPER (sequence (mpipe w))) in
    let data_length := data_length + 1 in
    let w := w |> poke (data + data_length) (ubyte_LOWER (sequence (mpipe w))) in
    let data_length := data_length + 1 in
    let crcval := crc_block w data data_length in
    let w := w |> poke (data + data_length) (ubyte_UPPER crcval) in
    let data_length := data_length + 1 in
    let w := w |> poke (data + data_length) (ubyte_LOWER crcval) in
    let data_length := data_length + 1 in
    let w := w |> MPIPE_DMA_TXCONFIG_ON data data_length in
    let w := w |> UART_OPEN in
    let w := w |> MPIPE_DMA_TXTRIGGER in
    if blocking then (WaitIdle data_length, w)
    else (Ret data_length, w)
  end.

(** [blocking] is not used by [mpipe_rxndef]. *)
Definition mpipe_rxndef (data : Z) (blocking : bool) (data_priority : mpipe_priority)
    (w : machine) : returned * machine :=
  let data_length := 10 in
  let guarded :=
    if negb (priority_eqb data_priority MPIPE_Ack) then
      if negb (state_eqb (state (mpipe w)) MPIPE_Idle) then None
      else Some (w |> set_priority data_priority
                   |> set_pktbuf data
                   |> set_pktlen 6)
    else Some w in
  match guarded with
  | None => (Ret (-1), w)
  | Some w =>
    let w := w |> set_state MPIPE_Idle in
    let w := w |> MPIPE_DMAEN_OFF in
    let w := w |> MPIPE_DMA_RXCONFIG_ON data data_length in
    let w := w |> I2C_OPEN in
    let w := w |> I2C_CLEAR_RXIFG in
    (Ret 0, w)
  end.

Definition sub_rxdone (w : machine) : machine :=
  let w := w |> UART_CLOSE in
  let w := w |> set_state MPIPE_Idle in
  let w := w |> set_priority MPIPE_Low in
  w |> call_signal (sig_rxdone (mpipe w)) 0.

Definition sub_txdone (w : machine) : machine :=
  let w := w |> UART_CLOSE in
  (* increment sequence on TX Done *)
  let w := w |> set_sequence (u16 (sequence (mpipe w) + 1)) in
  let w := w |> set_state MPIPE_Idle in
  let w := w |> set_priority MPIPE_Low in
  w |> call_signal (sig_txdone (mpipe w)) 0.

(** The body shared by [case MPIPE_Idle] (which does not break) and
    [case MPIPE_RxHeader]. *)
Definition isr_RxHeader (w : machine) : machine :=
  let w := w |> set_state MPIPE_RxPayload in
  let w := w |> set_pktlen
             (s16 (pktlen (mpipe w)
                   + (load (ram w) (pktbuf (mpipe w) + 2) + MPIPE_FOOTERBYTES))) in
  w |> MPIPE_DMA_RXCONFIG_ON (pktbuf (mpipe w) + 6) (pktlen (mpipe w) - 6).

Definition mpipe_isr (w : machine) : machine :=
  match state (mpipe w) with
  | MPIPE_Idle =>
    let w := w |> call_signal (sig_rxdetect (mpipe w)) 0 in
    isr_RxHeader w
  | MPIPE_RxHeader => isr_RxHeader w
  | MPIPE_RxPayload =>
    if negb (priority_eqb (priority (mpipe w)) MPIPE_Broadcast) then
      (* Copy RX'ed seq into ACK *)
      let seq_val := pktbuf (mpipe w) + (pktlen (mpipe w) - MPIPE_FOOTERBYTES) in
      let w := w |> set_sequence
                 (set_ubyte_UPPER (sequence (mpipe w)) (load (ram w) seq_val)) in
      let seq_val := seq_val + 1 in
      let w := w |> set_sequence
                 (set_ubyte_LOWER (sequence (mpipe w)) (load (ram w) seq_val)) in
      let w := w |> poke (ackbuf + 0) 0xDD in
      let w := w |> poke (ackbuf + 1) 0 in
      let w := w |> poke (ackbuf + 2) 0 in
      let w := w |> poke (ackbuf + 3) 2 in
      let w := w |> poke (ackbuf + 4) 0 in
      let w := w |> poke (ackbuf + 5)
                 (if crc_block w (pktbuf (mpipe w)) (pktlen (mpipe w)) =? 0
                  then 0 else 0x7F) in
      let w := snd (mpipe_txndef ackbuf false MPIPE_Ack w) in
      w |> set_state MPIPE_TxAck_Wait
    else
      (* Broadcast, so no ACK *)
      sub_rxdone w
  | MPIPE_TxAck_Wait => w |> set_IE true
  | MPIPE_TxAck_Done =>
    let w := w |> set_IE false in
    if negb (load (ram w) (ackbuf + 5) =? 0) then
      (* TX'ed a NACK *)
      let w := snd (mpipe_rxndef (pktbuf (mpipe w)) false (priority (mpipe w)) w) in
      w |> set_state MPIPE_RxHeader
    else sub_rxdone w
  | MPIPE_Tx_Wait => w |> set_IE true
  | MPIPE_Tx_Done =>
    let w := w |> set_IE false in
    if negb (priority_eqb (priority (mpipe w)) MPIPE_Broadcast) then
      let w := snd (mpipe_rxndef ackbuf false MPIPE_Ack w) in
      w |> set_state MPIPE_RxAck
    else
      (* Broadcast, so no ACK *)
      sub_txdone w
  | MPIPE_RxAck =>
    if negb (crc_block w ackbuf 10 =? 0) then
      (* RX'ed NACK *)
      snd (mpipe_txndef (pktbuf (mpipe w)) false (priority (mpipe w)) w)
    else
      (* RX'ed ACK *)
      sub_txdone w
  end.

(** The value of the interrupt vector register [DMA->IV] that names the
    channel of the pipe: 2, 4 or 6 for channel 0, 1 or 2. *)
Definition dma_iv_is_mpipe (iv : Z) : bool :=
  ((MPIPE_DMANUM =? 0) && (iv =? 2))
  || ((MPIPE_DMANUM =? 1) && (iv =? 4))
  || ((MPIPE_DMANUM =? 2) && (iv =? 6)).

(** [mpipe_dma_isr]: the dispatch runs when [DMA->IV] names the channel of
    the pipe. *)
Definition mpipe_dma_isr (iv : Z) (w : machine) : machine :=
  if dma_iv_is_mpipe iv then mpipe_isr w else w.

(** [mpipe_uart_isr]: in a wait state [mpipe.state++], else the dispatch. *)
Definition mpipe_uart_isr (w : machine) : machine :=
  match state (mpipe w) with
  | MPIPE_Tx_Wait => w |> set_state MPIPE_Tx_Done
  | MPIPE_TxAck_Wait => w |> set_state MPIPE_TxAck_Done
  | _ => mpipe_isr w
  end.

(** The interrupts that reach the module. *)
Inductive irq :=
| IRQ_DMA (iv : Z)
| IRQ_USCI.

Definition serve (i : irq) (w : machine) : machine :=
  match i with
  | IRQ_DMA iv => mpipe_dma_isr iv w
  | IRQ_USCI => mpipe_uart_isr w
  end.

(** What happens while the processor sleeps: bytes land in RAM through the
    DMA channel, or an interrupt is served. *)
Inductive happening :=
| bytes_arrive (bytes : list Z)
| interrupt_taken (i : irq).

Definition happen (h : happening) (w : machine) : machine :=
  match h with
  | bytes_arrive bytes => dma_receive bytes w
  | interrupt_taken i => serve i w
  end.

(** [mpipe_wait]: [while (mpipe.state != MPIPE_Idle) SLEEP_MCU();] against
    what happens while it sleeps.  It returns when the state is idle, and does
    not return if nothing more happens before that. *)
Fixpoint mpipe_wait (hs : list happening) (w : machine) : option machine :=
  if state_eqb (state (mpipe w)) MPIPE_Idle then Some w
  else match hs with
       | [] => None
       | h :: hs => mpipe_wait hs (happen h w)
       end.

(** A call to its end: the wait of a blocking call included. *)
Definition complete (hs : list happening) (r : returned * machine) : option (Z * machine) :=
  match fst r with
  | Ret v => Some (v, snd r)
  | WaitIdle v =>
    match mpipe_wait hs (snd r) with
    | Some w => Some (v, w)
    | None => None
    end
  end.

(** ** Operations and observations *)

(** Everything that acts on the module: the calls of its interface and the
    interrupts.  A blocking call is taken up to its wait; the interrupts that
    end the wait are operations of their own. *)
Inductive operation :=
| call_init
| call_setsig_txdone (signal : sigfn)
| call_setsig_rxdone (signal : sigfn)
| call_setsig_rxdetect (signal : sigfn)
| call_txndef (data : Z) (blocking : bool) (data_priority : mpipe_priority)
| call_rxndef (data : Z) (blocking : bool) (data_priority : mpipe_priority)
| interrupt (i : irq).

Definition run (o : operation) (w : machine) : machine :=
  match o with
  | call_init => snd (mpipe_init w)
  | call_setsig_txdone f => mpipe_setsig_txdone f w
  | call_setsig_rxdone f => mpipe_setsig_rxdone f w
  | call_setsig_rxdetect f => mpipe_setsig_rxdetect f w
  | call_txndef data blocking pr => snd (mpipe_txndef data blocking pr w)
  | call_rxndef data blocking pr => snd (mpipe_rxndef data blocking pr w)
  | interrupt i => serve i w
  end.

(** Whether an operation runs the dispatch [mpipe_isr]. *)
Definition dispatches (o : operation) (w : machine) : bool :=
  match o with
  | interrupt (IRQ_DMA iv) => dma_iv_is_mpipe iv
  | interrupt IRQ_USCI =>
    match state (mpipe w) with
    | MPIPE_Tx_Wait | MPIPE_TxAck_Wait => false
    | _ => true
    end
  | _ => false
  end.

(** The dispatch is on the send-complete path: a broadcast has been sent, or
    the acknowledgment of a frame has arrived with a zero checksum. *)
Definition completes_send (w : machine) : bool :=
  match state (mpipe w) with
  | MPIPE_Tx_Done => priority_eqb (priority (mpipe w)) MPIPE_Broadcast
  | MPIPE_RxAck => crc_block w ackbuf 10 =? 0
  | _ => false
  end.

(** The dispatch answers a received frame with an acknowledgment. *)
Definition acknowledges (w : machine) : bool :=
  match state (mpipe w) with
  | MPIPE_RxPayload => negb (priority_eqb (priority (mpipe w)) MPIPE_Broadcast)
  | _ => false
  end.

(** The sequence field of the frame in the pending buffer: the first two of
    its last [MPIPE_FOOTERBYTES] bytes, upper byte first. *)
Definition rx_sequence (w : machine) : Z :=
  load (ram w) (pktbuf (mpipe w) + (pktlen (mpipe w) - MPIPE_FOOTERBYTES)) * 256
  + load (ram w) (pktbuf (mpipe w) + (pktlen (mpipe w) - MPIPE_FOOTERBYTES) + 1).

(** The bookkeeping of the main transfer. *)
Definition bookkeeping (w : machine) : Z * Z * mpipe_priority :=
  (pktbuf (mpipe w), pktlen (mpipe w), priority (mpipe w)).

(** ** The rest of the interface, and more observations *)

(** Modelled from the spec: [I2C_CLOSE] is used by the source but defined in
    none of its files; it is taken as the transceiver operation of the same
    name that this file defines for [UART_]. *)
Definition I2C_CLOSE : machine -> machine := UART_CLOSE.

(** [mpipe_setspeed]: the argument is not used; the divider [BRW] is set to 7
    as in [mpipe_init]. *)
Definition mpipe_setspeed (speed : Z) (w : machine) : machine :=
  let w := w |> I2C_CLOSE in
  let w := w |> set_IE false in
  w |> UART_CLEAR_TXIFG |> UART_CLEAR_RXIFG.

(** The idle test of [mpipe_txndef] and [mpipe_rxndef] turns the call away. *)
Definition turned_away (data_priority : mpipe_priority) (w : machine) : bool :=
  negb (priority_eqb data_priority MPIPE_Ack)
  && negb (state_eqb (state (mpipe w)) MPIPE_Idle).

(** The dispatch is on the receive-complete path: a broadcast frame has been
    received, or an acknowledgment of status 0 has been sent. *)
Definition completes_receive (w : machine) : bool :=
  match state (mpipe w) with
  | MPIPE_RxPayload => priority_eqb (priority (mpipe w)) MPIPE_Broadcast
  | MPIPE_TxAck_Done => load (ram w) (ackbuf + 5) =? 0
  | _ => false
  end.

(** The calls recorded when [f] is called with [arg]. *)
Definition after_call (f : sigfn) (arg : Z) (calls : list (Z * Z)) : list (Z * Z) :=
  match f with
  | sub_signull => calls
  | app_signal id => (id, arg) :: calls
  end.

(** The property of a checksum that the receiver's test relies on: a block
    followed by the upper and the lower byte of its checksum has checksum 0. *)
Definition crc_residue_zero : Prop :=
  forall block : list Z,
    let c := u16 (platform_crc_block block) in
    u16 (platform_crc_block (block ++ [ubyte_UPPER c; ubyte_LOWER c])) = 0.

(** The bytes of RAM an operation may write: the four bytes of the footer
    behind the frame for a send that is not turned away, the ten bytes of the
    acknowledgment buffer for an interrupt, none for the other calls. *)
Definition may_write (o : operation) (w : machine) (a : Z) : bool :=
  match o with
  | call_txndef data _ pri =>
    let len := load (ram w) (data + 2) + 6 in
    negb (turned_away pri w) && (data + len <=? a) && (a <? data + len + 4)
  | interrupt _ => (ackbuf <=? a) && (a <? ackbuf + 10)
  | _ => false
  end.

(** The interrupts served one after the other. *)
Definition serve_all (irqs : list irq) (w : machine) : machine :=
  fold_left (fun w i => serve i w) irqs w.

(** ** Facts about integers, bytes and RAM *)

Lemma state_eqb_eq (a b : mpipe_state) : state_eqb a b = true <-> a = b.
Proof. split; [destruct a, b; simpl; congruence | intros ->; destruct b; reflexivity]. Qed.

Lemma priority_eqb_eq (a b : mpipe_priority) : priority_eqb a b = true <-> a = b.
Proof. split; [destruct a, b; simpl; congruence | intros ->; destruct b; reflexivity]. Qed.

Lemma priority_eqb_neq (a b : mpipe_priority) : priority_eqb a b = false <-> a <> b.
Proof.
  rewrite <- priority_eqb_eq. destruct (priority_eqb a b); split; congruence.
Qed.

Lemma state_eqb_neq (a b : mpipe_state) : state_eqb a b = false <-> a <> b.
Proof.
  rewrite <- state_eqb_eq. destruct (state_eqb a b); split; congruence.
Qed.

Lemma u8_range (z : Z) : 0 <= u8 z < 256.
Proof. unfold u8. apply Z.mod_pos_bound. lia. Qed.

Lemma u8_small (z : Z) : 0 <= z < 256 -> u8 z = z.
Proof. intros H. unfold u8. apply Z.mod_small. exact H. Qed.

Lemma u16_range (z : Z) : 0 <= u16 z < 65536.
Proof. unfold u16. apply Z.mod_pos_bound. lia. Qed.

Lemma u16_small (z : Z) : 0 <= z < 65536 -> u16 z = z.
Proof. intros H. unfold u16. apply Z.mod_small. exact H. Qed.

Lemma s16_small (z : Z) : -32768 <= z < 32768 -> s16 z = z.
Proof. intros H. unfold s16. rewrite Z.mod_small; lia. Qed.

Lemma ubyte_UPPER_range (t : Twobytes) : 0 <= ubyte_UPPER t < 256.
Proof. unfold ubyte_UPPER. apply Z.mod_pos_bound. lia. Qed.

Lemma ubyte_LOWER_range (t : Twobytes) : 0 <= ubyte_LOWER t < 256.
Proof. unfold ubyte_LOWER. apply Z.mod_pos_bound. lia. Qed.

(** The two bytes of a 16-bit value give the value back. *)
Lemma Twobytes_split (t : Twobytes) :
  0 <= t < 65536 -> ubyte_UPPER t * 256 + ubyte_LOWER t = t.
Proof.
  intros H. unfold ubyte_UPPER, ubyte_LOWER.
  rewrite (Z.mod_small (t / 256)).
  - pose proof (Z.div_mod t 256). lia.
  - split; [apply Z.div_pos; lia | apply Z.div_lt_upper_bound; lia].
Qed.

Lemma Twobytes_UPPER_of (a b : Z) :
  0 <= a < 256 -> 0 <= b < 256 -> ubyte_UPPER (a * 256 + b) = a.
Proof.
  intros Ha Hb. unfold ubyte_UPPER.
  rewrite Z.div_add_l by lia. rewrite (Z.div_small b) by lia.
  rewrite Z.add_0_r. apply Z.mod_small. exact Ha.
Qed.

Lemma Twobytes_LOWER_of (a b : Z) :
  0 <= b < 256 -> ubyte_LOWER (a * 256 + b) = b.
Proof.
  intros Hb. unfold ubyte_LOWER.
  rewrite Z.add_comm, Z.mod_add by lia. apply Z.mod_small. exact Hb.
Qed.

Lemma load_range (m : memory) (a : Z) : 0 <= load m a < 256.
Proof. apply u8_range. Qed.

Lemma load_store_same (m : memory) (a v : Z) : load (store m a v) a = u8 v.
Proof.
  unfold load, store. rewrite Z.eqb_refl. apply u8_small, u8_range.
Qed.

Lemma load_store_other (m : memory) (a b v : Z) :
  b <> a -> load (store m a v) b = load m b.
Proof.
  intros H. unfold load, store.
  destruct (Z.eqb_spec b a); [contradiction | reflexivity].
Qed.

Lemma read_block_length (m : memory) (p len : Z) :
  length (read_block m p len) = Z.to_nat len.
Proof. unfold read_block. rewrite length_map, length_seq. reflexivity. Qed.

Lemma read_block_ext (m m' : memory) (p len : Z) :
  (forall a, p <= a < p + len -> load m' a = load m a) ->
  read_block m' p len = read_block m p len.
Proof.
  intros H. unfold read_block. apply map_ext_in.
  intros i Hi. apply in_seq in Hi. apply H. lia.
Qed.

Lemma read_block_store_outside (m : memory) (a v p len : Z) :
  a < p \/ p + len <= a ->
  read_block (store m a v) p len = read_block m p len.
Proof.
  intros H. apply read_block_ext. intros b Hb.
  apply load_store_other. lia.
Qed.

Lemma read_block_snoc (m : memory) (p len : Z) :
  0 <= len ->
  read_block m p (len + 1) = read_block m p len ++ [load m (p + len)].
Proof.
  intros H. unfold read_block.
  replace (Z.to_nat (len + 1)) with (S (Z.to_nat len)) by lia.
  rewrite seq_S, map_app. simpl.
  rewrite Z2Nat.id by exact H. reflexivity.
Qed.


(** ** The send and receive calls *)

Ltac regs :=
  cbv beta iota zeta delta
    [with_mpipe with_io set_priority set_state set_sequence set_pktbuf set_pktlen
     set_sig_rxdone set_sig_txdone set_sig_rxdetect poke call_signal
     UART_CLOSE UART_OPEN UART_SET_TXIFG UART_CLEAR_TXIFG UART_CLEAR_RXIFG
     set_IE MPIPE_DMAEN_OFF MPIPE_DMA_RXCONFIG_ON MPIPE_DMA_TXCONFIG_ON
     MPIPE_DMA_TXTRIGGER I2C_OPEN I2C_CLEAR_RXIFG sub_uart_portsetup
     mpipe ram io signalled priority state sequence pktbuf pktlen
     sig_rxdone sig_txdone sig_rxdetect
     dma_cfg dma_en usci_open usci_txie usci_txifg usci_rxifg fst snd].

Ltac open_machine w :=
  destruct w as [[pr0 st0 sq0 pb0 pl0 f1 f2 f3] m0 [cfg0 en0 op0 ie0 tf0 rf0] cs0]; simpl in *.

(** The idle test of [mpipe_txndef]. *)
Lemma txndef_turned_away (data : Z) (blocking : bool) (pri : mpipe_priority) (w : machine) :
  priority_eqb pri MPIPE_Ack = false ->
  state_eqb (state (mpipe w)) MPIPE_Idle = false ->
  mpipe_txndef data blocking pri w = (Ret (-1), w).
Proof.
  intros Hp Hs. unfold mpipe_txndef. rewrite Hp, Hs. reflexivity.
Qed.

(** C3. A send of a data kind (any kind but the acknowledgment) while the
    state is not idle returns -1 at once, also when it was asked to block, and
    leaves the whole machine as it was: state, pending buffer and length,
    priority, sequence, RAM and registers. *)
Theorem txndef_data_busy (data : Z) (blocking : bool) (pri : mpipe_priority) (w : machine) :
  pri <> MPIPE_Ack ->
  state (mpipe w) <> MPIPE_Idle ->
  mpipe_txndef data blocking pri w = (Ret (-1), w).
Proof.
  intros Hp Hs. apply txndef_turned_away.
  - apply priority_eqb_neq, Hp.
  - apply state_eqb_neq, Hs.
Qed.

(** The footer that [mpipe_txndef] writes behind the [len] bytes at [d]. *)
Lemma read_block_footer (m : memory) (d len a b c e : Z) :
  0 <= len ->
  read_block
    (store (store (store (store m (d + len) a) (d + (len + 1)) b)
              (d + (len + 1 + 1)) c) (d + (len + 1 + 1 + 1)) e)
    d (len + 1 + 1 + 1 + 1)
  = read_block m d len ++ [u8 a; u8 b; u8 c; u8 e].
Proof.
  intros H.
  rewrite 4 read_block_snoc by lia.
  rewrite 4 read_block_store_outside by lia.
  rewrite <- !app_assoc. simpl. f_equal.
  rewrite load_store_same.
  rewrite (load_store_other _ _ (d + (len + 1 + 1))) by lia.
  rewrite load_store_same.
  rewrite 2 (load_store_other _ _ (d + (len + 1))) by lia.
  rewrite load_store_same.
  rewrite 3 (load_store_other _ _ (d + len)) by lia.
  rewrite load_store_same. reflexivity.
Qed.

Lemma read_block_sequence (m : memory) (d len a b : Z) :
  0 <= len ->
  read_block (store (store m (d + len) a) (d + (len + 1)) b) d (len + 1 + 1)
  = read_block m d len ++ [u8 a; u8 b].
Proof.
  intros H.
  rewrite 2 read_block_snoc by lia.
  rewrite 2 read_block_store_outside by lia.
  rewrite <- !app_assoc. simpl. f_equal.
  rewrite load_store_same.
  rewrite (load_store_other _ _ (d + len)) by lia.
  rewrite load_store_same. reflexivity.
Qed.

(** C4. A send of a data kind while the state is idle succeeds.  With [len]
    the header and payload length [data[2] + 6], it gives back [len + 4] (at
    once, or after the wait when it was asked to block); it records the
    buffer, [len] and the kind; the [len + 4] bytes of the buffer are then the
    [len] bytes it held, the upper and lower byte of the sequence, and the
    upper and lower byte of the checksum of those [len + 2] bytes; RAM is
    otherwise as before, the sequence counter too; the DMA is set to send the
    [len + 4] bytes and the state is [MPIPE_Tx_Wait]. *)
Theorem txndef_data_idle (data : Z) (blocking : bool) (pri : mpipe_priority) (w : machine) :
  pri <> MPIPE_Ack ->
  state (mpipe w) = MPIPE_Idle ->
  let len := load (ram w) (data + 2) + 6 in
  let sq := sequence (mpipe w) in
  let crc :=
    u16 (platform_crc_block
           (read_block (ram w) data len ++ [ubyte_UPPER sq; ubyte_LOWER sq])) in
  let r := fst (mpipe_txndef data blocking pri w) in
  let w' := snd (mpipe_txndef data blocking pri w) in
  r = (if blocking then WaitIdle (len + 4) else Ret (len + 4))
  /\ pktbuf (mpipe w') = data
  /\ pktlen (mpipe w') = len
  /\ priority (mpipe w') = pri
  /\ state (mpipe w') = MPIPE_Tx_Wait
  /\ sequence (mpipe w') = sq
  /\ read_block (ram w') data (len + 4)
     = read_block (ram w) data len
       ++ [ubyte_UPPER sq; ubyte_LOWER sq; ubyte_UPPER crc; ubyte_LOWER crc]
  /\ (forall a, a < data + len \/ data + len + 4 <= a -> load (ram w') a = load (ram w) a)
  /\ dma_cfg (io w') = DMA_TX data (len + 4)
  /\ dma_en (io w') = true
  /\ usci_open (io w') = true.
Proof.
  intros Hp Hs len sq crc r w'.
  pose proof (load_range (ram w) (data + 2)) as Hl.
  assert (Hlen : 0 <= len < 262) by (unfold len; lia).
  subst r w'. unfold mpipe_txndef, crc_block.
  apply priority_eqb_neq in Hp. rewrite Hp.
  open_machine w. subst st0. simpl negb. cbv iota.
  fold len. destruct blocking; regs; fold len; fold sq;
    rewrite read_block_sequence by lia;
    rewrite !(u8_small (ubyte_UPPER _)) by apply ubyte_UPPER_range;
    rewrite !(u8_small (ubyte_LOWER _)) by apply ubyte_LOWER_range;
    fold crc;
    replace (len + 4) with (len + 1 + 1 + 1 + 1) by lia;
    rewrite read_block_footer by lia;
    rewrite !(u8_small (ubyte_UPPER _)) by apply ubyte_UPPER_range;
    rewrite !(u8_small (ubyte_LOWER _)) by apply ubyte_LOWER_range;
    rewrite u16_small by lia;
    (repeat split; try reflexivity);
    intros a Ha; rewrite !load_store_other by lia; reflexivity.
Qed.
(** C8. A send or a receive of the acknowledgment kind is never turned away,
    whatever the state: the send gives back the frame length [data[2] + 10],
    which is not -1, and the receive gives back 0; and neither changes the
    pending buffer, the pending length or the priority.  So a call that
    changes one of the three is of a data kind. *)
Theorem ack_kind_bypasses_bookkeeping (data : Z) (blocking : bool) (w : machine) :
  let tx := mpipe_txndef data blocking MPIPE_Ack w in
  let rx := mpipe_rxndef data blocking MPIPE_Ack w in
  value_of (fst tx) = load (ram w) (data + 2) + 10
  /\ value_of (fst tx) <> -1
  /\ state (mpipe (snd tx)) = MPIPE_Tx_Wait
  /\ bookkeeping (snd tx) = bookkeeping w
  /\ fst rx = Ret 0
  /\ state (mpipe (snd rx)) = MPIPE_Idle
  /\ bookkeeping (snd rx) = bookkeeping w
  /\ (forall pri, bookkeeping (snd (mpipe_txndef data blocking pri w)) <> bookkeeping w ->
                  pri <> MPIPE_Ack)
  /\ (forall pri, bookkeeping (snd (mpipe_rxndef data blocking pri w)) <> bookkeeping w ->
                  pri <> MPIPE_Ack).
Proof.
  intros tx rx.
  pose proof (load_range (ram w) (data + 2)) as Hl.
  assert (Htx : value_of (fst tx) = load (ram w) (data + 2) + 10
                /\ state (mpipe (snd tx)) = MPIPE_Tx_Wait
                /\ bookkeeping (snd tx) = bookkeeping w).
  { subst tx. unfold mpipe_txndef, bookkeeping. simpl negb. cbv iota.
    destruct blocking; regs; unfold value_of; repeat split; lia. }
  assert (Hrx : fst rx = Ret 0
                /\ state (mpipe (snd rx)) = MPIPE_Idle
                /\ bookkeeping (snd rx) = bookkeeping w).
  { subst rx. unfold mpipe_rxndef, bookkeeping. simpl negb. cbv iota.
    regs. repeat split. }
  destruct Htx as (Hv & Hst & Hbk). destruct Hrx as (Hr & Hsr & Hbr).
  split; [exact Hv|]. split; [lia|]. split; [exact Hst|]. split; [exact Hbk|].
  split; [exact Hr|]. split; [exact Hsr|]. split; [exact Hbr|].
  split; intros pri Hch ->; [fold tx in Hch | fold rx in Hch]; contradiction.
Qed.

(** ** The dispatch *)

Ltac loads :=
  repeat (rewrite load_store_same
          || match goal with
             | |- context [load (store ?m ?a ?v) ?b] =>
               rewrite (load_store_other m a b v) by lia
             end).

Lemma read_block_8 (m : memory) (p : Z) :
  read_block m p 8
  = [load m (p + 0); load m (p + 1); load m (p + 2); load m (p + 3);
     load m (p + 4); load m (p + 5); load m (p + 6); load m (p + 7)].
Proof. reflexivity. Qed.

Lemma read_block_10 (m : memory) (p : Z) :
  read_block m p 10
  = [load m (p + 0); load m (p + 1); load m (p + 2); load m (p + 3);
     load m (p + 4); load m (p + 5); load m (p + 6); load m (p + 7);
     load m (p + 8); load m (p + 9)].
Proof. reflexivity. Qed.

(** The sequence counter after its two bytes have been assigned. *)
Lemma sequence_from_bytes (t : Twobytes) (m : memory) (a b : Z) :
  set_ubyte_LOWER (set_ubyte_UPPER t (load m a)) (load m b)
  = load m a * 256 + load m b.
Proof.
  unfold set_ubyte_LOWER, set_ubyte_UPPER.
  pose proof (load_range m a). pose proof (load_range m b).
  pose proof (ubyte_LOWER_range t).
  rewrite (u8_small (load m a)), (u8_small (load m b)) by assumption.
  rewrite Twobytes_UPPER_of by assumption. reflexivity.
Qed.

(** C5. The dispatch in [MPIPE_RxPayload] with a priority that is not
    broadcast, the acknowledgment buffer lying outside the received frame:
    the sequence counter becomes the sequence field of the frame; the
    acknowledgment buffer holds the ten bytes 0xDD 0 0 2 0, the status, the
    two bytes of that sequence and the two bytes of the checksum of these
    eight; the status is 0 exactly when the checksum of the received frame is
    0, and 0x7F otherwise; the DMA is set to send the ten bytes, by a send of
    the acknowledgment kind that leaves the bookkeeping alone; and the state
    is [MPIPE_TxAck_Wait]. *)
Theorem isr_RxPayload_acknowledges (w : machine) :
  state (mpipe w) = MPIPE_RxPayload ->
  priority (mpipe w) <> MPIPE_Broadcast ->
  pktbuf (mpipe w) + pktlen (mpipe w) <= ackbuf \/ ackbuf + 10 <= pktbuf (mpipe w) ->
  let frame := read_block (ram w) (pktbuf (mpipe w)) (pktlen (mpipe w)) in
  let status := if u16 (platform_crc_block frame) =? 0 then 0 else 0x7F in
  let head := [0xDD; 0; 0; 2; 0; status;
               ubyte_UPPER (rx_sequence w); ubyte_LOWER (rx_sequence w)] in
  let crc := u16 (platform_crc_block head) in
  let w' := mpipe_isr w in
  sequence (mpipe w') = rx_sequence w
  /\ read_block (ram w') ackbuf 10 = head ++ [ubyte_UPPER crc; ubyte_LOWER crc]
  /\ (status = 0 <-> u16 (platform_crc_block frame) = 0)
  /\ (status = 0 \/ status = 0x7F)
  /\ dma_cfg (io w') = DMA_TX ackbuf 10
  /\ dma_en (io w') = true
  /\ usci_open (io w') = true
  /\ bookkeeping w' = bookkeeping w
  /\ state (mpipe w') = MPIPE_TxAck_Wait.
Proof.
  intros Hs Hp Hsep frame status head crc w'.
  subst w'. unfold mpipe_isr. rewrite Hs.
  apply priority_eqb_neq in Hp. rewrite Hp. simpl negb. cbv iota.
  unfold mpipe_txndef, crc_block, bookkeeping. simpl negb. cbv iota.
  unfold rx_sequence in *.
  destruct w as [[pr0 st0 sq0 pb0 pl0 f1 f2 f3] m0 [cfg0 en0 op0 ie0 tf0 rf0] cs0].
  regs. cbv beta iota zeta delta [mpipe ram pktbuf pktlen] in frame, head, Hsep.
  rewrite !sequence_from_bytes.
  rewrite !(read_block_store_outside _ _ _ pb0 pl0) by lia.
  fold frame. fold status.
  loads. change (u8 0) with 0.
  set (rs := load m0 (pb0 + (pl0 - MPIPE_FOOTERBYTES)) * 256
             + load m0 (pb0 + (pl0 - MPIPE_FOOTERBYTES) + 1)) in *.
  cbn [Z.add Pos.add Pos.succ].
  assert (Hst : u8 status = status)
    by (subst status; destruct (_ =? 0); reflexivity).
  rewrite read_block_8, read_block_10.
  loads.
  rewrite !(u8_small (ubyte_UPPER _)) by apply ubyte_UPPER_range.
  rewrite !(u8_small (ubyte_LOWER _)) by apply ubyte_LOWER_range.
  rewrite !Hst.
  change (u8 221) with 221. change (u8 0) with 0. change (u8 2) with 2.
  fold head. fold crc. change (u16 10) with 10.
  assert (Hiff : status = 0 <-> u16 (platform_crc_block frame) = 0).
  { subst status. destruct (Z.eqb_spec (u16 (platform_crc_block frame)) 0);
      split; intros; (assumption || reflexivity || lia). }
  assert (Hor : status = 0 \/ status = 0x7F).
  { subst status. destruct (_ =? 0); [left | right]; reflexivity. }
  repeat (split; [first [reflexivity | exact Hiff | exact Hor | apply Hiff] |]).
  reflexivity.
Qed.

(** C10. The dispatch in [MPIPE_RxPayload] with a priority that is not
    broadcast: bytes 6 and 7 of the acknowledgment buffer that the DMA is set
    to send are the two bytes of the sequence field of the received frame; the
    sequence counter has been overwritten with that field, and the two bytes
    are the upper and lower byte of the counter. *)
Theorem ack_carries_received_sequence (w : machine) :
  state (mpipe w) = MPIPE_RxPayload ->
  priority (mpipe w) <> MPIPE_Broadcast ->
  let seq_val := pktbuf (mpipe w) + (pktlen (mpipe w) - MPIPE_FOOTERBYTES) in
  let w' := mpipe_isr w in
  load (ram w') (ackbuf + 6) = load (ram w) seq_val
  /\ load (ram w') (ackbuf + 7) = load (ram w) (seq_val + 1)
  /\ sequence (mpipe w') = rx_sequence w
  /\ load (ram w') (ackbuf + 6) = ubyte_UPPER (sequence (mpipe w'))
  /\ load (ram w') (ackbuf + 7) = ubyte_LOWER (sequence (mpipe w'))
  /\ dma_cfg (io w') = DMA_TX ackbuf 10
  /\ dma_en (io w') = true.
Proof.
  intros Hs Hp seq_val w'.
  subst w' seq_val. unfold mpipe_isr. rewrite Hs.
  apply priority_eqb_neq in Hp. rewrite Hp. simpl negb. cbv iota.
  unfold mpipe_txndef, crc_block, rx_sequence.
  destruct w as [[pr0 st0 sq0 pb0 pl0 f1 f2 f3] m0 [cfg0 en0 op0 ie0 tf0 rf0] cs0].
  regs. simpl negb. cbv iota. regs.
  rewrite !sequence_from_bytes.
  loads. change (u8 0) with 0. cbn [Z.add Pos.add Pos.succ].
  loads.
  pose proof (load_range m0 (pb0 + (pl0 - MPIPE_FOOTERBYTES))) as Ha.
  pose proof (load_range m0 (pb0 + (pl0 - MPIPE_FOOTERBYTES) + 1)) as Hb.
  rewrite Twobytes_UPPER_of, Twobytes_LOWER_of by assumption.
  rewrite !u8_small by assumption.
  change (u16 10) with 10.
  repeat split.
Qed.

(** X17. The session priority is never the acknowledgment kind: no operation
    makes it so. *)
Lemma priority_never_Ack (o : operation) (w : machine) :
  priority (mpipe w) <> MPIPE_Ack ->
  priority (mpipe (run o w)) <> MPIPE_Ack.
Proof.
  intros H.
  assert (Htx : forall d b p v, priority (mpipe v) <> MPIPE_Ack ->
            priority (mpipe (snd (mpipe_txndef d b p v))) <> MPIPE_Ack).
  { intros d b p v Hv. unfold mpipe_txndef.
    destruct p, (state (mpipe v)), b; simpl negb; cbv iota; regs;
      (exact Hv || discriminate). }
  assert (Hrx : forall d b p v, priority (mpipe v) <> MPIPE_Ack ->
            priority (mpipe (snd (mpipe_rxndef d b p v))) <> MPIPE_Ack).
  { intros d b p v Hv. unfold mpipe_rxndef.
    destruct p, (state (mpipe v)); simpl negb; cbv iota; regs;
      (exact Hv || discriminate). }
  assert (Hrd : forall v, priority (mpipe (sub_rxdone v)) <> MPIPE_Ack).
  { intros [[a1 a2 a3 a4 a5 g1 g2 g3] a6 a7 a8]. unfold sub_rxdone. regs.
    destruct g1; discriminate. }
  assert (Htd : forall v, priority (mpipe (sub_txdone v)) <> MPIPE_Ack).
  { intros [[a1 a2 a3 a4 a5 g1 g2 g3] a6 a7 a8]. unfold sub_txdone. regs.
    destruct g2; discriminate. }
  assert (Hisr : forall v, priority (mpipe v) <> MPIPE_Ack ->
            priority (mpipe (mpipe_isr v)) <> MPIPE_Ack).
  { intros v Hv. unfold mpipe_isr, isr_RxHeader.
    destruct (state (mpipe v)).
    - destruct v as [[a1 a2 a3 a4 a5 g1 g2 g3] a6 a7 a8]. regs.
      destruct g3; exact Hv.
    - regs; exact Hv.
    - destruct (negb _); [| apply Hrd]. apply Htx. exact Hv.
    - exact Hv.
    - destruct (negb _); [| apply Hrd]. apply Hrx. exact Hv.
    - exact Hv.
    - destruct (negb _); [| apply Htd]. apply Hrx. exact Hv.
    - destruct (negb _); [| apply Htd]. apply Htx. exact Hv. }
  destruct o as [| f | f | f | d b p | d b p | i]; simpl.
  - regs. discriminate.
  - exact H.
  - exact H.
  - exact H.
  - apply Htx, H.
  - apply Hrx, H.
  - destruct i as [iv |]; simpl.
    + unfold mpipe_dma_isr. destruct (dma_iv_is_mpipe iv); [apply Hisr|]; exact H.
    + unfold mpipe_uart_isr.
      destruct (state (mpipe w)) eqn:E; try (apply Hisr, H); exact H.
Qed.

(** The dispatch on a corrupted acknowledgment is the identity. *)
Lemma isr_RxAck_corrupt_fixed (w : machine) :
  state (mpipe w) = MPIPE_RxAck ->
  priority (mpipe w) <> MPIPE_Ack ->
  crc_block w ackbuf 10 <> 0 ->
  mpipe_isr w = w.
Proof.
  intros Hs Hp Hc. unfold mpipe_isr. rewrite Hs.
  apply Z.eqb_neq in Hc. rewrite Hc. simpl negb. cbv iota.
  rewrite txndef_turned_away;
    [reflexivity | apply priority_eqb_neq, Hp | rewrite Hs; reflexivity].
Qed.

(** X18. After a corrupted acknowledgment no interrupt moves the machine, so
    a blocking send never returns however many interrupts follow. *)
Lemma corrupt_ack_wait_never_returns (irqs : list irq) (w : machine) :
  state (mpipe w) = MPIPE_RxAck ->
  priority (mpipe w) <> MPIPE_Ack ->
  crc_block w ackbuf 10 <> 0 ->
  mpipe_wait (map interrupt_taken irqs) w = None.
Proof.
  intros Hs Hp Hc.
  assert (Hfix : forall i, serve i w = w).
  { intros [iv |]; simpl.
    - unfold mpipe_dma_isr. destruct (dma_iv_is_mpipe iv); [| reflexivity].
      apply isr_RxAck_corrupt_fixed; assumption.
    - unfold mpipe_uart_isr. rewrite Hs.
      apply isr_RxAck_corrupt_fixed; assumption. }
  induction irqs as [| i irqs IH]; simpl; rewrite Hs; simpl.
  - reflexivity.
  - rewrite Hfix. exact IH.
Qed.

(** C1. What the code does on a corrupted acknowledgment.  In [MPIPE_RxAck]
    with a session priority that is not the acknowledgment kind (and it never
    is), a non-zero checksum of the acknowledgment buffer leads to the call
    [mpipe_txndef(mpipe.pktbuf, False, mpipe.priority)], which is turned away
    by the idle test because the state is [MPIPE_RxAck]: the dispatch leaves
    the machine exactly as it was.  Nothing is sent again and the state stays
    [MPIPE_RxAck]. *)
Theorem isr_RxAck_corrupt_ack_no_resend (w : machine) :
  state (mpipe w) = MPIPE_RxAck ->
  priority (mpipe w) <> MPIPE_Ack ->
  crc_block w ackbuf 10 <> 0 ->
  mpipe_isr w = w
  /\ state (mpipe (mpipe_isr w)) = MPIPE_RxAck
  /\ dma_cfg (io (mpipe_isr w)) = dma_cfg (io w)
  /\ snd (mpipe_txndef (pktbuf (mpipe w)) false (priority (mpipe w)) w) = w
  /\ fst (mpipe_txndef (pktbuf (mpipe w)) false (priority (mpipe w)) w) = Ret (-1).
Proof.
  intros Hs Hp Hc.
  rewrite (isr_RxAck_corrupt_fixed w Hs Hp Hc).
  rewrite txndef_turned_away;
    [| apply priority_eqb_neq, Hp | rewrite Hs; reflexivity].
  repeat split. exact Hs.
Qed.

(** C2. What the code does after it has sent a NACK.  In [MPIPE_TxAck_Done]
    with a non-zero status byte and a session priority that is not the
    acknowledgment kind, the call
    [mpipe_rxndef(mpipe.pktbuf, False, mpipe.priority)] is turned away by the
    idle test: the dispatch only clears the interrupt enable and sets the
    state to [MPIPE_RxHeader].  The DMA is not set up to receive and the
    pending length is not set back to the header length. *)
Theorem isr_TxAckDone_nack_no_rearm (w : machine) :
  state (mpipe w) = MPIPE_TxAck_Done ->
  priority (mpipe w) <> MPIPE_Ack ->
  load (ram w) (ackbuf + 5) <> 0 ->
  mpipe_isr w = set_state MPIPE_RxHeader (set_IE false w)
  /\ state (mpipe (mpipe_isr w)) = MPIPE_RxHeader
  /\ dma_cfg (io (mpipe_isr w)) = dma_cfg (io w)
  /\ dma_en (io (mpipe_isr w)) = dma_en (io w)
  /\ pktlen (mpipe (mpipe_isr w)) = pktlen (mpipe w).
Proof.
  intros Hs Hp Hn.
  assert (E : mpipe_isr w = set_state MPIPE_RxHeader (set_IE false w)).
  { unfold mpipe_isr. rewrite Hs.
    apply Z.eqb_neq in Hn.
    replace (ram (set_IE false w)) with (ram w) by reflexivity.
    rewrite Hn. simpl negb. cbv iota.
    unfold mpipe_rxndef.
    replace (priority (mpipe (set_IE false w))) with (priority (mpipe w)) by reflexivity.
    replace (state (mpipe (set_IE false w))) with (state (mpipe w)) by reflexivity.
    apply priority_eqb_neq in Hp. rewrite Hp, Hs. reflexivity. }
  rewrite E. repeat split.
Qed.



(** The header phase of the dispatch, whatever the pending length. *)
Lemma isr_header_effect (w : machine) :
  state (mpipe w) = MPIPE_Idle \/ state (mpipe w) = MPIPE_RxHeader ->
  let n := load (ram w) (pktbuf (mpipe w) + 2) in
  let w' := mpipe_isr w in
  state (mpipe w') = MPIPE_RxPayload
  /\ pktbuf (mpipe w') = pktbuf (mpipe w)
  /\ pktlen (mpipe w') = s16 (pktlen (mpipe w) + (n + 4))
  /\ dma_cfg (io w') = DMA_RX (pktbuf (mpipe w) + 6) (u16 (pktlen (mpipe w') - 6))
  /\ dma_en (io w') = true
  /\ ram w' = ram w
  /\ (pktlen (mpipe w) = 6 ->
      pktlen (mpipe w') = 6 + n + 4
      /\ dma_cfg (io w') = DMA_RX (pktbuf (mpipe w) + 6) (n + 4)
      /\ (n = 0 -> dma_cfg (io w') = DMA_RX (pktbuf (mpipe w) + 6) 4)).
Proof.
  intros Hs n w'.
  assert (E : w' = isr_RxHeader (call_signal
                (match state (mpipe w) with
                 | MPIPE_Idle => sig_rxdetect (mpipe w)
                 | _ => sub_signull
                 end) 0 w)).
  { subst w'. unfold mpipe_isr. destruct Hs as [-> | ->]; reflexivity. }
  clear Hs. pose proof (load_range (ram w) (pktbuf (mpipe w) + 2)) as Hn.
  fold n in Hn. subst w'. rewrite E. clear E. unfold isr_RxHeader.
  destruct w as [[pr0 st0 sq0 pb0 pl0 f1 f2 f3] m0 [cfg0 en0 op0 ie0 tf0 rf0] cs0].
  cbv beta iota zeta delta [mpipe ram pktbuf pktlen state sig_rxdetect] in n, Hn |- *.
  unfold MPIPE_FOOTERBYTES.
  destruct (match st0 with MPIPE_Idle => f3 | _ => sub_signull end); regs; fold n;
    (repeat (split; [reflexivity |]));
    intros ->;
    rewrite s16_small by lia;
    replace (6 + (n + 4) - 6) with (n + 4) by lia;
    rewrite u16_small by lia;
    (split; [lia | split; [reflexivity | intros ->; reflexivity]]).
Qed.

(** C6. The dispatch in the header phase ([MPIPE_RxHeader], or [MPIPE_Idle]
    which falls through to it), on a captured prefix: the pending length is
    the header length 6, as [mpipe_rxndef] sets it when it arms the capture
    of the ten-byte prefix.  The dispatch reads the payload length [n] at
    offset 2 of the pending buffer, sets the DMA to receive exactly [n + 4]
    bytes at offset 6 of the same buffer, records the total length
    [6 + n + 4], and moves to [MPIPE_RxPayload]; RAM is untouched.  The
    request is made for [n = 0] too: it is then for the four bytes at offsets
    6 to 9, which lie inside the ten-byte prefix. *)
Theorem isr_header_requests_remainder (w : machine) :
  state (mpipe w) = MPIPE_Idle \/ state (mpipe w) = MPIPE_RxHeader ->
  pktlen (mpipe w) = 6 ->
  let n := load (ram w) (pktbuf (mpipe w) + 2) in
  let w' := mpipe_isr w in
  state (mpipe w') = MPIPE_RxPayload
  /\ pktbuf (mpipe w') = pktbuf (mpipe w)
  /\ pktlen (mpipe w') = 6 + n + 4
  /\ dma_cfg (io w') = DMA_RX (pktbuf (mpipe w) + 6) (n + 4)
  /\ dma_en (io w') = true
  /\ ram w' = ram w
  /\ (n = 0 ->
      pktlen (mpipe w') = 10
      /\ dma_cfg (io w') = DMA_RX (pktbuf (mpipe w) + 6) 4).
Proof.
  intros Hs Hl n w'.
  destruct (isr_header_effect w Hs) as (H1 & H2 & _ & _ & H5 & H6 & H7).
  destruct (H7 Hl) as (H8 & H9 & _).
  fold n in H8, H9. fold w' in H1, H2, H5, H6, H8, H9.
  split; [exact H1 |]. split; [exact H2 |]. split; [exact H8 |].
  split; [exact H9 |]. split; [exact H5 |]. split; [exact H6 |].
  intros Hn. rewrite H8, H9, Hn. split; reflexivity.
Qed.

(** The sequence counter across a dispatch. *)
Lemma isr_sequence (w : machine) :
  sequence (mpipe (mpipe_isr w))
  = if completes_send w then u16 (sequence (mpipe w) + 1)
    else if acknowledges w then rx_sequence w
    else sequence (mpipe w).
Proof.
  unfold mpipe_isr, completes_send, acknowledges, rx_sequence, isr_RxHeader,
    sub_rxdone, sub_txdone, mpipe_txndef, mpipe_rxndef, crc_block.
  destruct w as [[pr0 st0 sq0 pb0 pl0 f1 f2 f3] m0 [cfg0 en0 op0 ie0 tf0 rf0] cs0].
  destruct st0; regs.
  - destruct f3; reflexivity.
  - reflexivity.
  - destruct pr0; simpl negb; cbv iota; regs;
      try (destruct f1; reflexivity); apply sequence_from_bytes.
  - reflexivity.
  - destruct (negb _), pr0; simpl negb; cbv iota; regs;
      try reflexivity; destruct f1; reflexivity.
  - reflexivity.
  - destruct pr0; simpl; try reflexivity. destruct f2; reflexivity.
  - destruct (_ =? 0); simpl negb; cbv iota.
    + destruct f2; reflexivity.
    + destruct pr0; simpl; reflexivity.
Qed.

(** C7, as the code has it.  The send-complete routine adds one to the
    sequence counter modulo 2^16 and the receive-complete routine leaves it
    alone.  Over all operations: a dispatch on the send-complete path (a
    broadcast sent, or an acknowledgment received with a zero checksum) adds
    one modulo 2^16; a dispatch in [MPIPE_RxPayload] with a priority that is
    not broadcast overwrites the counter with the sequence field of the
    received frame, whatever its value; every other operation leaves the
    counter as it is. *)
Theorem sequence_discipline (o : operation) (w : machine) :
  sequence (mpipe (sub_txdone w)) = u16 (sequence (mpipe w) + 1)
  /\ sequence (mpipe (sub_rxdone w)) = sequence (mpipe w)
  /\ sequence (mpipe (run o w))
     = if dispatches o w && completes_send w then u16 (sequence (mpipe w) + 1)
       else if dispatches o w && acknowledges w then rx_sequence w
       else sequence (mpipe w).
Proof.
  split; [| split].
  - destruct w as [[pr0 st0 sq0 pb0 pl0 f1 f2 f3] m0 io0 cs0].
    unfold sub_txdone. regs. destruct f2; reflexivity.
  - destruct w as [[pr0 st0 sq0 pb0 pl0 f1 f2 f3] m0 io0 cs0].
    unfold sub_rxdone. regs. destruct f1; reflexivity.
  - destruct o as [| f | f | f | d b p | d b p | i]; simpl;
      try reflexivity.
    + unfold mpipe_txndef.
      destruct p, (state (mpipe w)), b; simpl negb; cbv iota; reflexivity.
    + unfold mpipe_rxndef.
      destruct p, (state (mpipe w)); simpl negb; cbv iota; reflexivity.
    + destruct i as [iv |]; simpl.
      * unfold mpipe_dma_isr. destruct (dma_iv_is_mpipe iv); simpl;
          [apply isr_sequence | reflexivity].
      * unfold mpipe_uart_isr.
        destruct (state (mpipe w)) eqn:E; simpl;
          try reflexivity;
          rewrite isr_sequence; reflexivity.
Qed.

(** C9, as the code has it.  [mpipe_init] returns 0 and leaves the state
    idle, the priority low and the three signals pointing at the empty
    [sub_signull]; it does not write the sequence counter, which keeps the
    value it had (0 on the zero-initialised static data, the counter of the
    running session on a later call). *)
Theorem mpipe_init_post (w : machine) :
  let w' := snd (mpipe_init w) in
  fst (mpipe_init w) = 0
  /\ state (mpipe w') = MPIPE_Idle
  /\ priority (mpipe w') = MPIPE_Low
  /\ sig_rxdone (mpipe w') = sub_signull
  /\ sig_txdone (mpipe w') = sub_signull
  /\ sig_rxdetect (mpipe w') = sub_signull
  /\ sequence (mpipe w') = sequence (mpipe w).
Proof.
  unfold mpipe_init. regs. repeat split.
Qed.

(** ** More about the calls *)

(** X1. A receive of a data kind while the state is not idle returns -1 and
    leaves the whole machine as it was. *)
Theorem rxndef_data_busy (data : Z) (blocking : bool) (pri : mpipe_priority) (w : machine) :
  pri <> MPIPE_Ack ->
  state (mpipe w) <> MPIPE_Idle ->
  mpipe_rxndef data blocking pri w = (Ret (-1), w).
Proof.
  intros Hp Hs. unfold mpipe_rxndef.
  apply priority_eqb_neq in Hp. apply state_eqb_neq in Hs.
  rewrite Hp, Hs. reflexivity.
Qed.

(** X2. A receive of a data kind while the state is idle returns 0 at once,
    whether asked to block or not: it records the buffer, the header length 6
    and the kind, sets the DMA to receive the first ten bytes into the buffer,
    opens the transceiver, and leaves the state idle, and RAM and the sequence
    counter as they were. *)
Theorem rxndef_data_idle (data : Z) (blocking : bool) (pri : mpipe_priority) (w : machine) :
  pri <> MPIPE_Ack ->
  state (mpipe w) = MPIPE_Idle ->
  let w' := snd (mpipe_rxndef data blocking pri w) in
  fst (mpipe_rxndef data blocking pri w) = Ret 0
  /\ bookkeeping w' = (data, 6, pri)
  /\ state (mpipe w') = MPIPE_Idle
  /\ sequence (mpipe w') = sequence (mpipe w)
  /\ ram w' = ram w
  /\ dma_cfg (io w') = DMA_RX data 10
  /\ dma_en (io w') = true
  /\ usci_open (io w') = true
  /\ signalled w' = signalled w.
Proof.
  intros Hp Hs w'. subst w'. unfold mpipe_rxndef, bookkeeping.
  apply priority_eqb_neq in Hp. rewrite Hp, Hs. simpl negb. cbv iota.
  regs. repeat split.
Qed.

(** X3. [mpipe_txndef] returns -1 exactly when it is turned away (a data kind
    while the state is not idle), and then changes nothing.  Otherwise what it
    returns is the length of the frame, between 10 and 265, which is also the
    number of bytes the DMA is set to send from the buffer. *)
Theorem txndef_result (data : Z) (blocking : bool) (pri : mpipe_priority) (w : machine) :
  let r := fst (mpipe_txndef data blocking pri w) in
  let w' := snd (mpipe_txndef data blocking pri w) in
  (value_of r = -1 <-> turned_away pri w = true)
  /\ (if turned_away pri w
      then r = Ret (-1) /\ w' = w
      else 10 <= value_of r <= 265
           /\ value_of r = load (ram w) (data + 2) + 10
           /\ dma_cfg (io w') = DMA_TX data (value_of r)
           /\ dma_en (io w') = true
           /\ state (mpipe w') = MPIPE_Tx_Wait).
Proof.
  intros r w'. subst r w'.
  destruct w as [[pr0 st0 sq0 pb0 pl0 f1 f2 f3] m0 [cfg0 en0 op0 ie0 tf0 rf0] cs0].
  pose proof (load_range m0 (data + 2)) as Hl.
  unfold turned_away, mpipe_txndef. regs.
  destruct (negb (priority_eqb pri MPIPE_Ack)), (negb (state_eqb st0 MPIPE_Idle));
    cbn [andb]; cbv iota;
    try (split; [split; [reflexivity | reflexivity] | split; reflexivity]);
    destruct blocking; regs; unfold value_of;
    (split; [split; [lia | discriminate] |]);
    rewrite u16_small by lia;
    (split; [lia |]); (split; [lia |]);
    replace (load m0 (data + 2) + 6 + 1 + 1 + 1 + 1)
      with (load m0 (data + 2) + 10) by lia;
    repeat split.
Qed.

(** The loop of [mpipe_wait] ends only in the idle state, and at once when it
    starts there. *)
Lemma mpipe_wait_post (hs : list happening) (w w' : machine) :
  mpipe_wait hs w = Some w' ->
  state (mpipe w') = MPIPE_Idle
  /\ (state (mpipe w) = MPIPE_Idle -> w' = w).
Proof.
  revert w. induction hs as [| h hs IH]; intros w; simpl;
    destruct (state_eqb (state (mpipe w)) MPIPE_Idle) eqn:E.
  - intros [= <-]. apply state_eqb_eq in E. split; [exact E | reflexivity].
  - discriminate.
  - intros [= <-]. apply state_eqb_eq in E. split; [exact E | reflexivity].
  - intros H. apply state_eqb_neq in E. split; [apply (IH _ H) | contradiction].
Qed.

(** X4. A blocking send that was accepted gives its result back only with
    the session idle again, and the result is the length of the frame; the
    same call without blocking returns at once with the session in
    [MPIPE_Tx_Wait]. *)
Theorem blocking_send_returns_idle (hs : list happening) (data : Z) (pri : mpipe_priority)
    (w w' : machine) (v : Z) :
  turned_away pri w = false ->
  complete hs (mpipe_txndef data true pri w) = Some (v, w') ->
  state (mpipe w') = MPIPE_Idle
  /\ v = load (ram w) (data + 2) + 10
  /\ exists u, complete hs (mpipe_txndef data false pri w) = Some (v, u)
               /\ state (mpipe u) = MPIPE_Tx_Wait
               /\ mpipe_wait hs u = Some w'.
Proof.
  intros Ht. unfold complete, mpipe_txndef. unfold turned_away in Ht.
  destruct (negb (priority_eqb pri MPIPE_Ack)),
           (negb (state_eqb (state (mpipe w)) MPIPE_Idle));
    try discriminate; cbv iota; cbn [fst snd];
    set (l := load (ram w) (data + 2)) in *;
    (destruct (mpipe_wait hs _) as [u |] eqn:E; [| discriminate]);
    intros [= <- <-];
    (split; [apply (mpipe_wait_post _ _ _ E) |]);
    (split; [lia |]);
    eexists; (split; [reflexivity |]); (split; [reflexivity | exact E]).
Qed.

(** ** More about the dispatch *)

(** X5. The dispatch in [MPIPE_Tx_Done] with a priority that is not
    broadcast turns the transmit interrupt off and sets the DMA to receive
    the ten bytes of the acknowledgment into the acknowledgment buffer; the
    state is [MPIPE_RxAck]; the bookkeeping of the frame just sent, the
    sequence counter and RAM are as before, and no signal is called. *)
Theorem isr_TxDone_awaits_ack (w : machine) :
  state (mpipe w) = MPIPE_Tx_Done ->
  priority (mpipe w) <> MPIPE_Broadcast ->
  let w' := mpipe_isr w in
  state (mpipe w') = MPIPE_RxAck
  /\ dma_cfg (io w') = DMA_RX ackbuf 10
  /\ dma_en (io w') = true
  /\ usci_txie (io w') = false
  /\ usci_open (io w') = true
  /\ bookkeeping w' = bookkeeping w
  /\ sequence (mpipe w') = sequence (mpipe w)
  /\ ram w' = ram w
  /\ signalled w' = signalled w.
Proof.
  intros Hs Hp w'. subst w'. unfold mpipe_isr, bookkeeping. rewrite Hs.
  apply priority_eqb_neq in Hp.
  replace (priority (mpipe (set_IE false w))) with (priority (mpipe w)) by reflexivity.
  rewrite Hp. simpl negb. cbv iota.
  unfold mpipe_rxndef. simpl negb. cbv iota. regs. repeat split.
Qed.

(** X6. A dispatch on the send-complete path (a broadcast sent, or an
    acknowledgment received with a zero checksum) closes the transceiver,
    leaves the session idle with the low priority, and calls the send-done
    signal once with argument 0.  The pending buffer and length, RAM and the
    DMA set-up are as before: nothing is armed. *)
Theorem isr_send_complete (w : machine) :
  completes_send w = true ->
  let w' := mpipe_isr w in
  state (mpipe w') = MPIPE_Idle
  /\ priority (mpipe w') = MPIPE_Low
  /\ sequence (mpipe w') = u16 (sequence (mpipe w) + 1)
  /\ pktbuf (mpipe w') = pktbuf (mpipe w)
  /\ pktlen (mpipe w') = pktlen (mpipe w)
  /\ ram w' = ram w
  /\ usci_open (io w') = false
  /\ dma_cfg (io w') = dma_cfg (io w)
  /\ signalled w' = after_call (sig_txdone (mpipe w)) 0 (signalled w).
Proof.
  unfold completes_send, mpipe_isr, sub_txdone, crc_block.
  destruct w as [[pr0 st0 sq0 pb0 pl0 f1 f2 f3] m0 [cfg0 en0 op0 ie0 tf0 rf0] cs0].
  regs. destruct st0; try discriminate; intros H; rewrite H; simpl negb; cbv iota;
    regs; destruct f2; repeat split.
Qed.

(** X7. A dispatch on the receive-complete path (a broadcast frame received,
    or an acknowledgment of status 0 sent) closes the transceiver, leaves the
    session idle with the low priority, and calls the receive-done signal
    once with argument 0.  The sequence counter, the pending buffer and
    length, RAM and the DMA set-up are as before. *)
Theorem isr_receive_complete (w : machine) :
  completes_receive w = true ->
  let w' := mpipe_isr w in
  state (mpipe w') = MPIPE_Idle
  /\ priority (mpipe w') = MPIPE_Low
  /\ sequence (mpipe w') = sequence (mpipe w)
  /\ pktbuf (mpipe w') = pktbuf (mpipe w)
  /\ pktlen (mpipe w') = pktlen (mpipe w)
  /\ ram w' = ram w
  /\ usci_open (io w') = false
  /\ dma_cfg (io w') = dma_cfg (io w)
  /\ signalled w' = after_call (sig_rxdone (mpipe w)) 0 (signalled w).
Proof.
  unfold completes_receive, mpipe_isr, sub_rxdone.
  destruct w as [[pr0 st0 sq0 pb0 pl0 f1 f2 f3] m0 [cfg0 en0 op0 ie0 tf0 rf0] cs0].
  regs. destruct st0; try discriminate; intros H; rewrite H; simpl negb; cbv iota;
    regs; destruct f1; repeat split.
Qed.

(** The signals called by one dispatch. *)
Lemma isr_signalled (w : machine) :
  signalled (mpipe_isr w)
  = if completes_send w then after_call (sig_txdone (mpipe w)) 0 (signalled w)
    else if completes_receive w then after_call (sig_rxdone (mpipe w)) 0 (signalled w)
    else if state_eqb (state (mpipe w)) MPIPE_Idle
         then after_call (sig_rxdetect (mpipe w)) 0 (signalled w)
    else signalled w.
Proof.
  unfold mpipe_isr, completes_send, completes_receive, isr_RxHeader,
    sub_rxdone, sub_txdone, mpipe_txndef, mpipe_rxndef, crc_block.
  destruct w as [[pr0 st0 sq0 pb0 pl0 f1 f2 f3] m0 [cfg0 en0 op0 ie0 tf0 rf0] cs0].
  destruct st0; regs; cbn [state_eqb].
  - destruct f3; reflexivity.
  - reflexivity.
  - destruct pr0; simpl negb; cbv iota; regs;
      try (destruct f1; reflexivity); reflexivity.
  - reflexivity.
  - destruct (load m0 (ackbuf + 5) =? 0), pr0; simpl negb; cbv iota; regs;
      try reflexivity; destruct f1; reflexivity.
  - reflexivity.
  - destruct pr0; simpl; try reflexivity; destruct f2; reflexivity.
  - destruct (_ =? 0); simpl negb; cbv iota.
    + destruct f2; reflexivity.
    + destruct pr0; simpl; reflexivity.
Qed.

(** X8. The signals over all operations.  A call of the interface calls no
    signal.  An interrupt that runs the dispatch calls at most one, with
    argument 0: the send-done signal exactly on the send-complete path, the
    receive-done signal exactly on the receive-complete path, and the
    receive-detected signal exactly when the state is idle. *)
Theorem signals_discipline (o : operation) (w : machine) :
  signalled (run o w)
  = if negb (dispatches o w) then signalled w
    else if completes_send w then after_call (sig_txdone (mpipe w)) 0 (signalled w)
    else if completes_receive w then after_call (sig_rxdone (mpipe w)) 0 (signalled w)
    else if state_eqb (state (mpipe w)) MPIPE_Idle
         then after_call (sig_rxdetect (mpipe w)) 0 (signalled w)
    else signalled w.
Proof.
  destruct o as [| f | f | f | d b p | d b p | i]; simpl; try reflexivity.
  - unfold mpipe_txndef.
    destruct p, (state (mpipe w)), b; simpl negb; cbv iota; reflexivity.
  - unfold mpipe_rxndef.
    destruct p, (state (mpipe w)); simpl negb; cbv iota; reflexivity.
  - destruct i as [iv |]; simpl.
    + unfold mpipe_dma_isr. destruct (dma_iv_is_mpipe iv); simpl;
        [apply isr_signalled | reflexivity].
    + unfold mpipe_uart_isr.
      destruct (state (mpipe w)) eqn:E; simpl; try reflexivity;
        rewrite isr_signalled; rewrite E; reflexivity.
Qed.

(** X9. [mpipe_init] brings the module back from any state: the next send,
    of any kind, is accepted and returns the frame length with the state
    [MPIPE_Tx_Wait], and the next receive returns 0. *)
Theorem init_then_call_accepted (data : Z) (blocking : bool) (pri : mpipe_priority)
    (w : machine) :
  let w0 := snd (mpipe_init w) in
  turned_away pri w0 = false
  /\ value_of (fst (mpipe_txndef data blocking pri w0)) = load (ram w) (data + 2) + 10
  /\ state (mpipe (snd (mpipe_txndef data blocking pri w0))) = MPIPE_Tx_Wait
  /\ fst (mpipe_rxndef data blocking pri w0) = Ret 0
  /\ dma_cfg (io (snd (mpipe_rxndef data blocking pri w0))) = DMA_RX data 10.
Proof.
  destruct w as [[pr0 st0 sq0 pb0 pl0 f1 f2 f3] m0 [cfg0 en0 op0 ie0 tf0 rf0] cs0].
  unfold mpipe_init, turned_away, mpipe_txndef, mpipe_rxndef. regs.
  cbn [state_eqb negb andb].
  destruct pri, blocking; cbn [priority_eqb negb andb]; cbv iota; regs;
    unfold value_of; repeat split; lia.
Qed.

(** ** Operations in sequence *)

Ltac run_program :=
  cbv beta iota zeta delta
    [serve_all fold_left serve mpipe_dma_isr mpipe_uart_isr mpipe_isr
     mpipe_txndef mpipe_rxndef sub_txdone sub_rxdone isr_RxHeader crc_block
     priority_eqb state_eqb negb andb bookkeeping after_call
     with_mpipe with_io set_priority set_state set_sequence set_pktbuf set_pktlen
     set_sig_rxdone set_sig_txdone set_sig_rxdetect poke call_signal
     UART_CLOSE UART_OPEN UART_SET_TXIFG UART_CLEAR_TXIFG UART_CLEAR_RXIFG
     set_IE MPIPE_DMAEN_OFF MPIPE_DMA_RXCONFIG_ON MPIPE_DMA_TXCONFIG_ON
     MPIPE_DMA_TXTRIGGER I2C_OPEN I2C_CLEAR_RXIFG
     mpipe ram io signalled priority state sequence pktbuf pktlen
     sig_rxdone sig_txdone sig_rxdetect
     dma_cfg dma_en usci_open usci_txie usci_txifg usci_rxifg fst snd].

(** X10. A send that expects an acknowledgment, up to the wait for it.  From
    the idle state, a send of a kind that is neither the acknowledgment nor
    broadcast, then the interrupt of the DMA and two interrupts of the
    transmitter: the state goes through [MPIPE_Tx_Wait] and [MPIPE_Tx_Done]
    to [MPIPE_RxAck], where the DMA is set to receive ten bytes into the
    acknowledgment buffer.  The frame in the buffer, the bookkeeping and the
    sequence counter are those of the send. *)
Theorem send_reaches_RxAck (data iv : Z) (pri : mpipe_priority) (w : machine) :
  state (mpipe w) = MPIPE_Idle ->
  pri <> MPIPE_Ack ->
  pri <> MPIPE_Broadcast ->
  dma_iv_is_mpipe iv = true ->
  let w1 := snd (mpipe_txndef data false pri w) in
  let w2 := serve (IRQ_DMA iv) w1 in
  let w3 := serve IRQ_USCI w2 in
  let w4 := serve IRQ_USCI w3 in
  state (mpipe w2) = MPIPE_Tx_Wait
  /\ usci_txie (io w2) = true
  /\ state (mpipe w3) = MPIPE_Tx_Done
  /\ state (mpipe w4) = MPIPE_RxAck
  /\ usci_txie (io w4) = false
  /\ dma_cfg (io w4) = DMA_RX ackbuf 10
  /\ dma_en (io w4) = true
  /\ ram w4 = ram w1
  /\ bookkeeping w4 = (data, load (ram w) (data + 2) + 6, pri)
  /\ sequence (mpipe w4) = sequence (mpipe w)
  /\ signalled w4 = signalled w.
Proof.
  intros Hs Hp Hb Hiv w1 w2 w3 w4. subst w1 w2 w3 w4.
  destruct w as [[pr0 st0 sq0 pb0 pl0 f1 f2 f3] m0 [cfg0 en0 op0 ie0 tf0 rf0] cs0].
  simpl in Hs. subst st0.
  destruct pri; try congruence.
  unfold serve, mpipe_dma_isr. rewrite Hiv.
  run_program. repeat split.
Qed.

(** X11. A broadcast send, to its end.  From the idle state, a broadcast
    send, then the interrupt of the DMA and two interrupts of the
    transmitter: the state goes through [MPIPE_Tx_Wait] and [MPIPE_Tx_Done]
    straight to [MPIPE_Idle], never through [MPIPE_RxAck]; the DMA is never
    set to receive; the sequence counter is one higher modulo 2^16, the
    priority is low again, and the send-done signal has been called once. *)
Theorem broadcast_send_completes (data iv : Z) (w : machine) :
  state (mpipe w) = MPIPE_Idle ->
  dma_iv_is_mpipe iv = true ->
  let len := load (ram w) (data + 2) + 6 in
  let w1 := snd (mpipe_txndef data false MPIPE_Broadcast w) in
  let w2 := serve (IRQ_DMA iv) w1 in
  let w3 := serve IRQ_USCI w2 in
  let w4 := serve IRQ_USCI w3 in
  state (mpipe w1) = MPIPE_Tx_Wait
  /\ state (mpipe w2) = MPIPE_Tx_Wait
  /\ state (mpipe w3) = MPIPE_Tx_Done
  /\ state (mpipe w4) = MPIPE_Idle
  /\ dma_cfg (io w4) = DMA_TX data (len + 4)
  /\ usci_open (io w4) = false
  /\ ram w4 = ram w1
  /\ sequence (mpipe w4) = u16 (sequence (mpipe w) + 1)
  /\ priority (mpipe w4) = MPIPE_Low
  /\ signalled w4 = after_call (sig_txdone (mpipe w)) 0 (signalled w).
Proof.
  intros Hs Hiv len w1 w2 w3 w4. subst w1 w2 w3 w4.
  destruct w as [[pr0 st0 sq0 pb0 pl0 f1 f2 f3] m0 [cfg0 en0 op0 ie0 tf0 rf0] cs0].
  simpl in Hs. subst st0.
  pose proof (load_range m0 (data + 2)) as Hl.
  unfold serve, mpipe_dma_isr. rewrite Hiv.
  run_program. cbv beta iota zeta delta [ram] in len. fold len.
  rewrite (u16_small (len + 1 + 1 + 1 + 1)) by (unfold len; lia).
  replace (len + 1 + 1 + 1 + 1) with (len + 4) by lia.
  destruct f2; repeat split.
Qed.

(** ** Frames between two machines *)

Lemma Twobytes_join (t : Twobytes) :
  ubyte_UPPER t * 256 + ubyte_LOWER t = u16 t.
Proof.
  unfold ubyte_UPPER, ubyte_LOWER, u16.
  change 65536 with (256 * 256).
  rewrite Z.rem_mul_r by lia. lia.
Qed.

Lemma read_block_nth (m : memory) (p len i : Z) (l : list Z) :
  read_block m p len = l ->
  0 <= i < len ->
  load m (p + i) = nth (Z.to_nat i) l 0.
Proof.
  intros <- Hi. unfold read_block.
  rewrite (nth_indep _ 0 (load m (p + Z.of_nat 0)))
    by (rewrite length_map, length_seq; lia).
  rewrite (map_nth (fun i => load m (p + Z.of_nat i))).
  rewrite seq_nth by lia. simpl. rewrite Z2Nat.id by lia. reflexivity.
Qed.

(** The frame in the buffer after a send that was not turned away. *)
Lemma txndef_accepted_frame (data : Z) (blocking : bool) (pri : mpipe_priority)
    (w : machine) :
  turned_away pri w = false ->
  let len := load (ram w) (data + 2) + 6 in
  let sq := sequence (mpipe w) in
  let body := read_block (ram w) data len ++ [ubyte_UPPER sq; ubyte_LOWER sq] in
  let crc := u16 (platform_crc_block body) in
  read_block (ram (snd (mpipe_txndef data blocking pri w))) data (len + 4)
  = body ++ [ubyte_UPPER crc; ubyte_LOWER crc].
Proof.
  intros Ht len sq body crc.
  destruct w as [[pr0 st0 sq0 pb0 pl0 f1 f2 f3] m0 [cfg0 en0 op0 ie0 tf0 rf0] cs0].
  cbv beta iota zeta delta [mpipe ram sequence] in len, sq, body, crc.
  pose proof (load_range m0 (data + 2)) as Hl.
  assert (Hlen : 0 <= len) by (unfold len; lia).
  unfold turned_away in Ht. unfold mpipe_txndef. regs.
  cbv beta iota zeta delta [mpipe state] in Ht.
  destruct (negb (priority_eqb pri MPIPE_Ack)), (negb (state_eqb st0 MPIPE_Idle));
    try discriminate; cbv iota;
    destruct blocking; run_program; fold len;
    rewrite read_block_sequence by lia;
    rewrite !(u8_small (ubyte_UPPER _)) by apply ubyte_UPPER_range;
    rewrite !(u8_small (ubyte_LOWER _)) by apply ubyte_LOWER_range;
    fold body; fold crc;
    replace (len + 4) with (len + 1 + 1 + 1 + 1) by lia;
    rewrite read_block_footer by lia;
    rewrite !(u8_small (ubyte_UPPER _)) by apply ubyte_UPPER_range;
    rewrite !(u8_small (ubyte_LOWER _)) by apply ubyte_LOWER_range;
    unfold body; rewrite <- app_assoc; reflexivity.
Qed.

(** What the dispatch that acknowledges a frame leaves behind. *)
Lemma isr_RxPayload_effect (w : machine) :
  state (mpipe w) = MPIPE_RxPayload ->
  priority (mpipe w) <> MPIPE_Broadcast ->
  let frame := read_block (ram w) (pktbuf (mpipe w)) (pktlen (mpipe w)) in
  let w' := mpipe_isr w in
  exists status,
    (status = 0 \/ status = 0x7F)
    /\ (pktbuf (mpipe w) + pktlen (mpipe w) <= ackbuf
        \/ ackbuf + 10 <= pktbuf (mpipe w) ->
        status = if u16 (platform_crc_block frame) =? 0 then 0 else 0x7F)
    /\ (let head := [0xDD; 0; 0; 2; 0; status;
                     ubyte_UPPER (rx_sequence w); ubyte_LOWER (rx_sequence w)] in
        let crc := u16 (platform_crc_block head) in
        read_block (ram w') ackbuf 10 = head ++ [ubyte_UPPER crc; ubyte_LOWER crc])
    /\ sequence (mpipe w') = rx_sequence w
    /\ state (mpipe w') = MPIPE_TxAck_Wait
    /\ bookkeeping w' = bookkeeping w
    /\ dma_cfg (io w') = DMA_TX ackbuf 10
    /\ signalled w' = signalled w
    /\ sig_rxdone (mpipe w') = sig_rxdone (mpipe w)
    /\ (forall a, a < ackbuf \/ ackbuf + 10 <= a -> load (ram w') a = load (ram w) a).
Proof.
  intros Hs Hp frame w'.
  subst w'. unfold mpipe_isr. rewrite Hs.
  apply priority_eqb_neq in Hp. rewrite Hp. simpl negb. cbv iota.
  unfold mpipe_txndef, crc_block, bookkeeping. simpl negb. cbv iota.
  unfold rx_sequence in *.
  destruct w as [[pr0 st0 sq0 pb0 pl0 f1 f2 f3] m0 [cfg0 en0 op0 ie0 tf0 rf0] cs0].
  regs. cbv beta iota zeta delta [mpipe ram pktbuf pktlen] in frame.
  rewrite !sequence_from_bytes.
  set (status := if u16 (platform_crc_block (read_block _ pb0 pl0)) =? 0
                 then 0 else 0x7F).
  exists status.
  assert (Hor : status = 0 \/ status = 0x7F)
    by (subst status; destruct (_ =? 0); [left | right]; reflexivity).
  assert (Hst : u8 status = status)
    by (destruct Hor as [-> | ->]; reflexivity).
  split; [exact Hor |]. split.
  { intros Hsep. subst status.
    rewrite !(read_block_store_outside _ _ _ pb0 pl0) by lia. reflexivity. }
  loads. change (u8 0) with 0.
  set (rs := load m0 (pb0 + (pl0 - MPIPE_FOOTERBYTES)) * 256
             + load m0 (pb0 + (pl0 - MPIPE_FOOTERBYTES) + 1)) in *.
  cbn [Z.add Pos.add Pos.succ].
  rewrite read_block_8, read_block_10.
  loads.
  rewrite !(u8_small (ubyte_UPPER _)) by apply ubyte_UPPER_range.
  rewrite !(u8_small (ubyte_LOWER _)) by apply ubyte_LOWER_range.
  rewrite !Hst.
  change (u8 221) with 221. change (u8 0) with 0. change (u8 2) with 2.
  change (u16 10) with 10.
  repeat (split; [reflexivity |]).
  intros a Ha. loads. reflexivity.
Qed.

(** X12. A frame written by [mpipe_txndef] is acknowledged as good.  With
    a checksum of zero residue: when the bytes that a send left in its buffer
    are the frame in the pending buffer of a machine in [MPIPE_RxPayload]
    (priority not broadcast, acknowledgment buffer outside the frame), the
    dispatch there writes status 0 and the two sequence bytes of the sender
    into its acknowledgment, and takes over the sender's sequence. *)
Theorem sent_frame_acknowledged (data : Z) (blocking : bool) (pri : mpipe_priority)
    (s r : machine) :
  crc_residue_zero ->
  turned_away pri s = false ->
  state (mpipe r) = MPIPE_RxPayload ->
  priority (mpipe r) <> MPIPE_Broadcast ->
  pktbuf (mpipe r) + pktlen (mpipe r) <= ackbuf \/ ackbuf + 10 <= pktbuf (mpipe r) ->
  read_block (ram r) (pktbuf (mpipe r)) (pktlen (mpipe r))
  = read_block (ram (snd (mpipe_txndef data blocking pri s))) data
      (load (ram s) (data + 2) + 6 + 4) ->
  let r' := mpipe_isr r in
  load (ram r') (ackbuf + 5) = 0
  /\ load (ram r') (ackbuf + 6) = ubyte_UPPER (sequence (mpipe s))
  /\ load (ram r') (ackbuf + 7) = ubyte_LOWER (sequence (mpipe s))
  /\ sequence (mpipe r') = u16 (sequence (mpipe s))
  /\ state (mpipe r') = MPIPE_TxAck_Wait.
Proof.
  intros Hres Ht Hs Hp Hsep Hfr r'.
  rewrite (txndef_accepted_frame data blocking pri s Ht) in Hfr.
  set (len := load (ram s) (data + 2) + 6) in *.
  set (sq := sequence (mpipe s)) in *.
  set (body := read_block (ram s) data len ++ [ubyte_UPPER sq; ubyte_LOWER sq]) in *.
  pose proof (load_range (ram s) (data + 2)) as Hl.
  assert (Hlen : pktlen (mpipe r) = len + 4).
  { apply (f_equal (@length Z)) in Hfr.
    rewrite read_block_length in Hfr. unfold body in Hfr.
    rewrite !length_app, read_block_length in Hfr. simpl in Hfr. lia. }
  assert (Hrs : rx_sequence r = u16 sq).
  { unfold rx_sequence, MPIPE_FOOTERBYTES.
    rewrite (read_block_nth _ _ _ (pktlen (mpipe r) - 4) _ Hfr) by lia.
    replace (pktbuf (mpipe r) + (pktlen (mpipe r) - 4) + 1)
      with (pktbuf (mpipe r) + (pktlen (mpipe r) - 4 + 1)) by lia.
    rewrite (read_block_nth _ _ _ (pktlen (mpipe r) - 4 + 1) _ Hfr) by lia.
    unfold body. rewrite <- !app_assoc.
    rewrite (app_nth2 _ _ _ (n := Z.to_nat (pktlen (mpipe r) - 4)))
      by (rewrite read_block_length; lia).
    rewrite (app_nth2 _ _ _ (n := Z.to_nat (pktlen (mpipe r) - 4 + 1)))
      by (rewrite read_block_length; lia).
    rewrite read_block_length.
    replace (Z.to_nat (pktlen (mpipe r) - 4) - Z.to_nat len)%nat with 0%nat by lia.
    replace (Z.to_nat (pktlen (mpipe r) - 4 + 1) - Z.to_nat len)%nat with 1%nat by lia.
    simpl. apply Twobytes_join. }
  destruct (isr_RxPayload_effect r Hs Hp)
    as (status & _ & Hst & Hack & Hq & Hstate & _).
  specialize (Hst Hsep). rewrite Hfr in Hst.
  rewrite (Hres body) in Hst. simpl in Hst.
  fold r' in Hack, Hq, Hstate. rewrite Hrs in Hack, Hq.
  rewrite (read_block_nth _ _ _ 5 _ Hack), (read_block_nth _ _ _ 6 _ Hack),
    (read_block_nth _ _ _ 7 _ Hack) by lia.
  simpl. subst status.
  pose proof (u16_range sq) as Hsq.
  assert (HU : ubyte_UPPER (u16 sq) = ubyte_UPPER sq).
  { rewrite <- (Twobytes_join sq). apply Twobytes_UPPER_of;
      [apply ubyte_UPPER_range | apply ubyte_LOWER_range]. }
  assert (HL : ubyte_LOWER (u16 sq) = ubyte_LOWER sq).
  { rewrite <- (Twobytes_join sq). apply Twobytes_LOWER_of, ubyte_LOWER_range. }
  rewrite HU, HL. repeat split; assumption.
Qed.

(** X13. The sender takes any well-formed acknowledgment as success.  With
    a checksum of zero residue: when the ten bytes that the acknowledging
    dispatch of one machine wrote are in the acknowledgment buffer of a
    machine in [MPIPE_RxAck], the dispatch there completes the send (idle,
    sequence one higher), whether the status byte says ACK or NACK: the
    sender never reads the status. *)
Theorem acknowledgment_completes_send (r s : machine) :
  crc_residue_zero ->
  state (mpipe r) = MPIPE_RxPayload ->
  priority (mpipe r) <> MPIPE_Broadcast ->
  state (mpipe s) = MPIPE_RxAck ->
  read_block (ram s) ackbuf 10 = read_block (ram (mpipe_isr r)) ackbuf 10 ->
  let s' := mpipe_isr s in
  completes_send s = true
  /\ state (mpipe s') = MPIPE_Idle
  /\ sequence (mpipe s') = u16 (sequence (mpipe s) + 1)
  /\ priority (mpipe s') = MPIPE_Low
  /\ ram s' = ram s.
Proof.
  intros Hres Hr Hp Hs Hack s'.
  destruct (isr_RxPayload_effect r Hr Hp) as (status & _ & _ & Hbytes & _).
  cbv zeta in Hbytes. rewrite Hbytes in Hack.
  assert (Hc : crc_block s ackbuf 10 = 0).
  { unfold crc_block. rewrite Hack. apply Hres. }
  assert (Hcs : completes_send s = true).
  { unfold completes_send. rewrite Hs, Hc. reflexivity. }
  split; [exact Hcs |].
  subst s'. unfold mpipe_isr. rewrite Hs, Hc. simpl negb. cbv iota.
  unfold sub_txdone.
  destruct s as [[pr0 st0 sq0 pb0 pl0 f1 f2 f3] m0 [cfg0 en0 op0 ie0 tf0 rf0] cs0].
  regs. destruct f2; repeat split.
Qed.

(** RAM outside the acknowledgment buffer across a dispatch. *)
Lemma isr_ram_outside (w : machine) (a : Z) :
  priority (mpipe w) <> MPIPE_Ack ->
  a < ackbuf \/ ackbuf + 10 <= a ->
  load (ram (mpipe_isr w)) a = load (ram w) a.
Proof.
  intros Hp Ha.
  destruct (state (mpipe w)) eqn:Hs.
  - unfold mpipe_isr, isr_RxHeader. rewrite Hs.
    destruct w as [[pr0 st0 sq0 pb0 pl0 f1 f2 f3] m0 io0 cs0].
    regs. destruct f3; reflexivity.
  - unfold mpipe_isr, isr_RxHeader. rewrite Hs. reflexivity.
  - destruct (priority_eqb (priority (mpipe w)) MPIPE_Broadcast) eqn:Hb.
    + unfold mpipe_isr, sub_rxdone. rewrite Hs, Hb. simpl negb. cbv iota.
      destruct w as [[pr0 st0 sq0 pb0 pl0 f1 f2 f3] m0 io0 cs0].
      regs. destruct f1; reflexivity.
    + apply priority_eqb_neq in Hb.
      destruct (isr_RxPayload_effect w Hs Hb) as (status & H).
      apply H. exact Ha.
  - unfold mpipe_isr. rewrite Hs. reflexivity.
  - unfold mpipe_isr, mpipe_rxndef, sub_rxdone. rewrite Hs.
    destruct w as [[pr0 st0 sq0 pb0 pl0 f1 f2 f3] m0 io0 cs0].
    simpl in Hs. subst st0.
    regs. destruct (load m0 (ackbuf + 5) =? 0), pr0; simpl negb; cbv iota; regs;
      try reflexivity; destruct f1; reflexivity.
  - unfold mpipe_isr. rewrite Hs. reflexivity.
  - unfold mpipe_isr, mpipe_rxndef, sub_txdone. rewrite Hs.
    destruct w as [[pr0 st0 sq0 pb0 pl0 f1 f2 f3] m0 io0 cs0].
    regs. destruct pr0; simpl negb; cbv iota; regs;
      try reflexivity; destruct f2; reflexivity.
  - unfold mpipe_isr. rewrite Hs.
    destruct (crc_block w ackbuf 10 =? 0); simpl negb; cbv iota.
    + unfold sub_txdone.
      destruct w as [[pr0 st0 sq0 pb0 pl0 f1 f2 f3] m0 io0 cs0].
      regs. destruct f2; reflexivity.
    + rewrite txndef_turned_away;
        [reflexivity | apply priority_eqb_neq, Hp | rewrite Hs; reflexivity].
Qed.

(** X14. What the module writes to RAM.  With a session priority that is not
    the acknowledgment kind: a send that is not turned away writes the four
    bytes of the footer behind the frame and nothing else; an interrupt
    writes nothing outside the ten bytes of the acknowledgment buffer; every
    other call writes nothing.  In particular no interrupt changes a byte of
    the caller's buffer outside the acknowledgment buffer. *)
Theorem ram_written_only_where_allowed (o : operation) (w : machine) (a : Z) :
  priority (mpipe w) <> MPIPE_Ack ->
  may_write o w a = false ->
  load (ram (run o w)) a = load (ram w) a.
Proof.
  intros Hp Hw.
  destruct o as [| f | f | f | d b p | d b p | i]; simpl; try reflexivity.
  - unfold may_write in Hw. unfold mpipe_txndef.
    unfold turned_away in Hw.
    destruct (negb (priority_eqb p MPIPE_Ack)),
             (negb (state_eqb (state (mpipe w)) MPIPE_Idle));
      cbn [andb negb] in Hw; cbv iota; try reflexivity;
      destruct b; regs; fold (ram w);
      rewrite !load_store_other by lia; reflexivity.
  - unfold mpipe_rxndef.
    destruct (negb (priority_eqb p MPIPE_Ack)),
             (negb (state_eqb (state (mpipe w)) MPIPE_Idle));
      cbv iota; reflexivity.
  - unfold may_write in Hw.
    assert (Ha : a < ackbuf \/ ackbuf + 10 <= a) by lia.
    destruct i as [iv |]; simpl.
    + unfold mpipe_dma_isr. destruct (dma_iv_is_mpipe iv); [| reflexivity].
      apply isr_ram_outside; assumption.
    + unfold mpipe_uart_isr.
      destruct (state (mpipe w)) eqn:E; try reflexivity;
        apply isr_ram_outside; assumption.
Qed.

(** ** Bytes that arrive *)

Lemma load_write_block_outside (bytes : list Z) (m : memory) (p a : Z) :
  a < p \/ p + Z.of_nat (length bytes) <= a ->
  load (write_block m p bytes) a = load m a.
Proof.
  revert m p. induction bytes as [| b bytes IH]; intros m p Ha; simpl.
  - reflexivity.
  - simpl length in Ha. rewrite IH by lia. apply load_store_other. lia.
Qed.

Lemma read_block_cons (m : memory) (p len : Z) :
  0 < len ->
  read_block m p len = load m p :: read_block m (p + 1) (len - 1).
Proof.
  intros H. unfold read_block.
  replace (Z.to_nat len) with (S (Z.to_nat (len - 1))) by lia.
  simpl. rewrite Z.add_0_r. f_equal.
  rewrite <- seq_shift, map_map. apply map_ext.
  intros i. f_equal. lia.
Qed.

Lemma read_block_write_block (bytes : list Z) (m : memory) (p : Z) :
  read_block (write_block m p bytes) p (Z.of_nat (length bytes)) = map u8 bytes.
Proof.
  revert m p. induction bytes as [| b bytes IH]; intros m p.
  - reflexivity.
  - rewrite read_block_cons by (simpl length; lia).
    simpl write_block. simpl map. f_equal.
    + rewrite load_write_block_outside by lia. apply load_store_same.
    + replace (Z.of_nat (length (b :: bytes)) - 1) with (Z.of_nat (length bytes))
        by (simpl length; lia).
      apply IH.
Qed.

Lemma read_block_app (m : memory) (p n1 n2 : Z) :
  0 <= n1 -> 0 <= n2 ->
  read_block m p (n1 + n2) = read_block m p n1 ++ read_block m (p + n1) n2.
Proof.
  intros H1 H2. revert n2 H2. apply natlike_ind.
  - rewrite Z.add_0_r. change (read_block m (p + n1) 0) with (@nil Z).
    rewrite app_nil_r. reflexivity.
  - intros x Hx IH. unfold Z.succ.
    rewrite Z.add_assoc, read_block_snoc by lia.
    rewrite IH, read_block_snoc by lia.
    rewrite <- app_assoc, Z.add_assoc. reflexivity.
Qed.

(** X15. A receive in two transfers.  From the idle state, a receive of a
    data kind, ten bytes [b1] arriving, the dispatch, and [n + 4] further
    bytes [b2] arriving, where [n] is the third of the first ten bytes: the
    dispatch has recorded the length [10 + n] and asked for [n + 4] bytes at
    offset 6, and the buffer then holds the first six bytes of [b1] followed
    by [b2].  Bytes 6 to 9 of the first transfer are overwritten by the
    second. *)
Theorem receive_in_two_transfers (data : Z) (blocking : bool) (pri : mpipe_priority)
    (b1 b2 : list Z) (w : machine) :
  state (mpipe w) = MPIPE_Idle ->
  pri <> MPIPE_Ack ->
  length b1 = 10%nat ->
  Z.of_nat (length b2) = u8 (nth 2 b1 0) + 4 ->
  let n := u8 (nth 2 b1 0) in
  let w1 := snd (mpipe_rxndef data blocking pri w) in
  let w2 := dma_receive b1 w1 in
  let w3 := mpipe_isr w2 in
  let w4 := dma_receive b2 w3 in
  read_block (ram w2) data 10 = map u8 b1
  /\ state (mpipe w3) = MPIPE_RxPayload
  /\ pktlen (mpipe w3) = 10 + n
  /\ dma_cfg (io w3) = DMA_RX (data + 6) (n + 4)
  /\ read_block (ram w4) data (10 + n) = map u8 (firstn 6 b1) ++ map u8 b2
  /\ bookkeeping w4 = (data, 10 + n, pri)
  /\ signalled w4 = after_call (sig_rxdetect (mpipe w)) 0 (signalled w).
Proof.
  intros Hs Hp H1 H2 n w1 w2 w3 w4.
  pose proof (u8_range (nth 2 b1 0)) as Hn. fold n in Hn, H2.
  destruct w as [[pr0 st0 sq0 pb0 pl0 f1 f2 f3] m0 [cfg0 en0 op0 ie0 tf0 rf0] cs0].
  simpl in Hs. subst st0.
  assert (E2 : w2 = Build_machine (Build_mpipe pri MPIPE_Idle sq0 data 6 f1 f2 f3)
                      (write_block m0 data b1)
                      (Build_periph (DMA_RX data 10) true true ie0 tf0 false) cs0).
  { subst w2 w1. unfold mpipe_rxndef, dma_receive.
    apply priority_eqb_neq in Hp. rewrite Hp. simpl negb. cbv iota. regs.
    change (u16 10) with 10. cbv iota.
    rewrite firstn_all2 by (rewrite H1; simpl; lia). reflexivity. }
  assert (Hb1 : read_block (write_block m0 data b1) data 10 = map u8 b1).
  { rewrite <- (read_block_write_block b1 m0 data). rewrite H1. reflexivity. }
  assert (Hn2 : load (write_block m0 data b1) (data + 2) = n).
  { rewrite (read_block_nth _ _ _ 2 _ Hb1) by lia.
    change 0 with (u8 0) at 1. rewrite map_nth. reflexivity. }
  assert (E3 : w3 = Build_machine
                      (Build_mpipe pri MPIPE_RxPayload sq0 data (10 + n) f1 f2 f3)
                      (write_block m0 data b1)
                      (Build_periph (DMA_RX (data + 6) (n + 4)) true true ie0 tf0 false)
                      (after_call f3 0 cs0)).
  { subst w3. rewrite E2. unfold mpipe_isr, isr_RxHeader, MPIPE_FOOTERBYTES. regs.
    destruct f3; regs; rewrite Hn2;
      rewrite s16_small by lia;
      replace (6 + (n + 4) - 6) with (n + 4) by lia;
      rewrite u16_small by lia;
      replace (6 + (n + 4)) with (10 + n) by lia; reflexivity. }
  assert (E4 : ram w4 = write_block (write_block m0 data b1) (data + 6) b2
               /\ mpipe w4 = mpipe w3 /\ signalled w4 = signalled w3).
  { subst w4. rewrite E3. unfold dma_receive. regs.
    rewrite firstn_all2 by lia. repeat split. }
  destruct E4 as (E4 & E4m & E4s).
  split; [rewrite E2; exact Hb1 |].
  split; [rewrite E3; reflexivity |].
  split; [rewrite E3; reflexivity |].
  split; [rewrite E3; reflexivity |].
  split.
  - rewrite E4. replace (10 + n) with (6 + (n + 4)) by lia.
    rewrite read_block_app by lia. f_equal.
    + rewrite (read_block_ext (write_block m0 data b1))
        by (intros a Ha; apply load_write_block_outside; lia).
      rewrite <- firstn_map, <- Hb1.
      change 10 with (6 + 4). rewrite read_block_app by lia.
      rewrite firstn_app, read_block_length.
      change (6 - Z.to_nat 6)%nat with 0%nat. simpl firstn at 2.
      rewrite app_nil_r.
      rewrite firstn_all2 by (rewrite read_block_length; lia). reflexivity.
    + rewrite <- H2. apply read_block_write_block.
  - unfold bookkeeping. rewrite E4m, E4s, E3. split; reflexivity.
Qed.

(** The steps between the acknowledgment sent and the end of a receive. *)
Lemma isr_TxAckWait (w : machine) :
  state (mpipe w) = MPIPE_TxAck_Wait -> mpipe_isr w = set_IE true w.
Proof. intros Hs. unfold mpipe_isr. rewrite Hs. reflexivity. Qed.

Lemma uart_isr_TxAckWait (w : machine) :
  state (mpipe w) = MPIPE_TxAck_Wait ->
  mpipe_uart_isr w = set_state MPIPE_TxAck_Done w.
Proof. intros Hs. unfold mpipe_uart_isr. rewrite Hs. reflexivity. Qed.

Lemma uart_isr_TxAckDone_ack (w : machine) :
  state (mpipe w) = MPIPE_TxAck_Done ->
  load (ram w) (ackbuf + 5) = 0 ->
  mpipe_uart_isr w = sub_rxdone (set_IE false w).
Proof.
  intros Hs H5. unfold mpipe_uart_isr, mpipe_isr. rewrite Hs.
  change (ram (set_IE false w)) with (ram w). rewrite H5. reflexivity.
Qed.

(** X16. A good frame, received to the end.  In [MPIPE_RxPayload] with a
    priority that is not broadcast, the acknowledgment buffer outside the
    frame and the checksum of the frame zero: the dispatch, the interrupt of
    the DMA that ends the sending of the acknowledgment and two interrupts of
    the transmitter bring the session to idle through [MPIPE_TxAck_Wait] and
    [MPIPE_TxAck_Done].  The receive-done signal has been called once, the
    sequence counter is the sequence of the frame, and the frame is in the
    pending buffer as it arrived. *)
Theorem good_frame_reception_completes (iv : Z) (w : machine) :
  state (mpipe w) = MPIPE_RxPayload ->
  priority (mpipe w) <> MPIPE_Broadcast ->
  pktbuf (mpipe w) + pktlen (mpipe w) <= ackbuf \/ ackbuf + 10 <= pktbuf (mpipe w) ->
  crc_block w (pktbuf (mpipe w)) (pktlen (mpipe w)) = 0 ->
  dma_iv_is_mpipe iv = true ->
  let w1 := serve (IRQ_DMA iv) w in
  let w2 := serve (IRQ_DMA iv) w1 in
  let w3 := serve IRQ_USCI w2 in
  let w4 := serve IRQ_USCI w3 in
  state (mpipe w1) = MPIPE_TxAck_Wait
  /\ state (mpipe w2) = MPIPE_TxAck_Wait
  /\ state (mpipe w3) = MPIPE_TxAck_Done
  /\ state (mpipe w4) = MPIPE_Idle
  /\ priority (mpipe w4) = MPIPE_Low
  /\ sequence (mpipe w4) = rx_sequence w
  /\ pktbuf (mpipe w4) = pktbuf (mpipe w)
  /\ pktlen (mpipe w4) = pktlen (mpipe w)
  /\ read_block (ram w4) (pktbuf (mpipe w)) (pktlen (mpipe w))
     = read_block (ram w) (pktbuf (mpipe w)) (pktlen (mpipe w))
  /\ usci_open (io w4) = false
  /\ signalled w4 = after_call (sig_rxdone (mpipe w)) 0 (signalled w).
Proof.
  intros Hs Hp Hsep Hc Hiv w1 w2 w3 w4.
  assert (E1 : w1 = mpipe_isr w)
    by (subst w1; unfold serve, mpipe_dma_isr; rewrite Hiv; reflexivity).
  destruct (isr_RxPayload_effect w Hs Hp)
    as (status & _ & Hst & Hack & Hq & Hstate & Hbk & _ & Hsig & Hrd & Hram).
  specialize (Hst Hsep). unfold crc_block in Hc. rewrite Hc in Hst. simpl in Hst.
  subst status. cbv zeta in Hack.
  pose proof (read_block_nth _ _ _ 5 _ Hack ltac:(lia)) as H5. simpl in H5.
  assert (Hblk : read_block (ram (mpipe_isr w)) (pktbuf (mpipe w)) (pktlen (mpipe w))
                 = read_block (ram w) (pktbuf (mpipe w)) (pktlen (mpipe w))).
  { apply read_block_ext. intros a Ha. apply Hram. lia. }
  unfold bookkeeping in Hbk.
  assert (E2 : w2 = set_IE true (mpipe_isr w)).
  { subst w2. rewrite E1. unfold serve, mpipe_dma_isr. rewrite Hiv.
    apply isr_TxAckWait, Hstate. }
  assert (E3 : w3 = set_state MPIPE_TxAck_Done (set_IE true (mpipe_isr w))).
  { subst w3. rewrite E2. unfold serve. apply uart_isr_TxAckWait, Hstate. }
  assert (E4 : w4 = sub_rxdone (set_IE false
                      (set_state MPIPE_TxAck_Done (set_IE true (mpipe_isr w))))).
  { subst w4. rewrite E3. unfold serve.
    apply uart_isr_TxAckDone_ack; [reflexivity | exact H5]. }
  rewrite E1, E2, E3, E4. clear E1 E2 E3 E4 w1 w2 w3 w4 Hack H5 Hram Hc Hsep.
  set (rs := rx_sequence w) in *. clearbody rs.
  destruct w as [[pr0 st0 sq0 pb0 pl0 f1 f2 f3] m0 io0 cs0].
  destruct (mpipe_isr _)
    as [[pr1 st1 sq1 pb1 pl1 g1 g2 g3] m1 [cfg1 en1 op1 ie1 tf1 rf1] cs1].
  cbn [mpipe ram signalled state sequence pktbuf pktlen priority sig_rxdone] in *.
  injection Hbk as Hpb Hpl Hpr. subst st1 sq1 pb1 pl1 pr1 cs1 g1.
  unfold sub_rxdone, after_call. regs.
  destruct f1; repeat split; exact Hblk.
Qed.

(** X19. Registering a signal.  The function given to [mpipe_setsig_txdone]
    is the one the next dispatch calls, once and with argument 0, exactly when
    that dispatch is on the send-complete path; likewise
    [mpipe_setsig_rxdone] on the receive-complete path and
    [mpipe_setsig_rxdetect] in the idle state; in every other case the
    registration makes no difference to the calls.  After [mpipe_init] the
    next dispatch calls no function of the application. *)
Theorem registered_signal_is_called (f : sigfn) (w : machine) :
  signalled (mpipe_isr (mpipe_setsig_txdone f w))
  = (if completes_send w then after_call f 0 (signalled w)
     else signalled (mpipe_isr w))
  /\ signalled (mpipe_isr (mpipe_setsig_rxdone f w))
     = (if completes_receive w then after_call f 0 (signalled w)
        else signalled (mpipe_isr w))
  /\ signalled (mpipe_isr (mpipe_setsig_rxdetect f w))
     = (if state_eqb (state (mpipe w)) MPIPE_Idle then after_call f 0 (signalled w)
        else signalled (mpipe_isr w))
  /\ signalled (mpipe_isr (snd (mpipe_init w))) = signalled w.
Proof.
  rewrite !isr_signalled.
  unfold mpipe_setsig_txdone, mpipe_setsig_rxdone, mpipe_setsig_rxdetect, mpipe_init,
    completes_send, completes_receive, crc_block.
  destruct w as [[pr0 st0 sq0 pb0 pl0 f1 f2 f3] m0 [cfg0 en0 op0 ie0 tf0 rf0] cs0].
  regs. cbn [state_eqb after_call].
  repeat split.
  - destruct st0; try reflexivity.
    + destruct (priority_eqb pr0 MPIPE_Broadcast); reflexivity.
    + destruct (_ =? 0); reflexivity.
  - destruct st0; try reflexivity.
    + destruct (priority_eqb pr0 MPIPE_Broadcast); reflexivity.
    + destruct (_ =? 0); reflexivity.
  - destruct st0; reflexivity.
Qed.

End Program.


(** ** The program on the example platform *)

Example crc16_check : crc16 [49;50;51;52;53;54;55;56;57] = 0x29B1.
Proof. vm_compute. reflexivity. Qed.

Example crc16_residue :
  crc16 (ex_frame [0xD1; 0; 2; 0; 0; 0; 65; 66] 7) = 0.
Proof. vm_compute. reflexivity. Qed.

(** A send that is acknowledged: the frame goes out, the interrupt of the
    transmitter ends the wait state, the ten bytes of the acknowledgment
    arrive with a zero checksum, and the session is idle again with the
    sequence one higher. *)
Example scenario_send_acknowledged :
  let w0 := ex_machine MPIPE_Low MPIPE_Idle 7 0
              (ram_of ex_buffer [0xD1; 0; 2; 0; 0; 0; 65; 66]) DMA_unset in
  let w1 := snd (mpipe_txndef crc16 ex_buffer false MPIPE_Low w0) in
  let w2 := serve crc16 ex_ackbuf 0 (IRQ_DMA 2) w1 in
  let w3 := serve crc16 ex_ackbuf 0 IRQ_USCI w2 in
  let w4 := serve crc16 ex_ackbuf 0 IRQ_USCI w3 in
  let w5 := dma_receive (ex_frame [0xDD; 0; 0; 2; 0; 0] 7) w4 in
  let w6 := serve crc16 ex_ackbuf 0 (IRQ_DMA 2) w5 in
  read_block (ram w1) ex_buffer 12 = ex_frame [0xD1; 0; 2; 0; 0; 0; 65; 66] 7
  /\ state (mpipe w1) = MPIPE_Tx_Wait
  /\ state (mpipe w3) = MPIPE_Tx_Done
  /\ state (mpipe w4) = MPIPE_RxAck
  /\ dma_cfg (io w4) = DMA_RX ex_ackbuf 10
  /\ state (mpipe w6) = MPIPE_Idle
  /\ sequence (mpipe w6) = 8.
Proof. vm_compute. repeat split; reflexivity. Qed.

(** The same send as one blocking call: it gives back 12 when all this has
    happened. *)
Example scenario_blocking_send :
  let w0 := ex_machine MPIPE_Low MPIPE_Idle 7 0
              (ram_of ex_buffer [0xD1; 0; 2; 0; 0; 0; 65; 66]) DMA_unset in
  let hs := [interrupt_taken (IRQ_DMA 2); interrupt_taken IRQ_USCI;
             interrupt_taken IRQ_USCI;
             bytes_arrive (ex_frame [0xDD; 0; 0; 2; 0; 0] 7);
             interrupt_taken (IRQ_DMA 2)] in
  match complete crc16 ex_ackbuf 0 hs (mpipe_txndef crc16 ex_buffer true MPIPE_Low w0) with
  | Some (v, w) => v = 12 /\ state (mpipe w) = MPIPE_Idle /\ sequence (mpipe w) = 8
  | None => False
  end.
Proof. vm_compute. repeat split; reflexivity. Qed.

(** The same send when the acknowledgment arrives with a flipped bit: the
    dispatch changes nothing, the state stays [MPIPE_RxAck] and the DMA is
    not set to send; a blocking call is still waiting. *)
Example scenario_corrupt_ack :
  let w0 := ex_machine MPIPE_Low MPIPE_Idle 7 0
              (ram_of ex_buffer [0xD1; 0; 2; 0; 0; 0; 65; 66]) DMA_unset in
  let hs := [interrupt_taken (IRQ_DMA 2); interrupt_taken IRQ_USCI;
             interrupt_taken IRQ_USCI;
             bytes_arrive [0xDD; 0; 0; 2; 0; 0; 0; 7; 101; 218]] in
  let w4 := fold_left (fun w h => happen crc16 ex_ackbuf 0 h w) hs
              (snd (mpipe_txndef crc16 ex_buffer false MPIPE_Low w0)) in
  let w5 := serve crc16 ex_ackbuf 0 (IRQ_DMA 2) w4 in
  state (mpipe w4) = MPIPE_RxAck
  /\ state (mpipe w5) = MPIPE_RxAck
  /\ dma_cfg (io w5) = DMA_RX ex_ackbuf 10
  /\ sequence (mpipe w5) = 7
  /\ complete crc16 ex_ackbuf 0 (hs ++ [interrupt_taken (IRQ_DMA 2)])
       (mpipe_txndef crc16 ex_buffer true MPIPE_Low w0) = None.
Proof. vm_compute. repeat split; reflexivity. Qed.

(** *** Instances of the theorems *)

Lemma txndef_data_busy_witness :
  let w := ex_machine MPIPE_Low MPIPE_RxAck 7 8
             (ram_of ex_buffer [0xD1; 0; 2; 0; 0; 0; 65; 66]) (DMA_RX ex_ackbuf 10) in
  MPIPE_Broadcast <> MPIPE_Ack
  /\ state (mpipe w) <> MPIPE_Idle
  /\ mpipe_txndef crc16 ex_buffer true MPIPE_Broadcast w = (Ret (-1), w).
Proof.
  intros w.
  assert (H1 : MPIPE_Broadcast <> MPIPE_Ack) by discriminate.
  assert (H2 : state (mpipe w) <> MPIPE_Idle) by (simpl; discriminate).
  split; [exact H1 | split; [exact H2 |]].
  exact (txndef_data_busy crc16 ex_buffer true MPIPE_Broadcast w H1 H2).
Defined.

Lemma txndef_data_idle_witness :
  let w := ex_machine MPIPE_Low MPIPE_Idle 7 0
             (ram_of ex_buffer [0xD1; 0; 2; 0; 0; 0; 65; 66]) DMA_unset in
  let r := mpipe_txndef crc16 ex_buffer false MPIPE_Low w in
  MPIPE_Low <> MPIPE_Ack
  /\ state (mpipe w) = MPIPE_Idle
  /\ fst r = Ret 12
  /\ pktbuf (mpipe (snd r)) = ex_buffer
  /\ pktlen (mpipe (snd r)) = 8
  /\ priority (mpipe (snd r)) = MPIPE_Low
  /\ state (mpipe (snd r)) = MPIPE_Tx_Wait
  /\ read_block (ram (snd r)) ex_buffer 12
     = [0xD1; 0; 2; 0; 0; 0; 65; 66; 0; 7; 24; 96]
  /\ dma_cfg (io (snd r)) = DMA_TX ex_buffer 12.
Proof.
  intros w r.
  assert (H1 : MPIPE_Low <> MPIPE_Ack) by discriminate.
  assert (H2 : state (mpipe w) = MPIPE_Idle) by reflexivity.
  split; [exact H1 | split; [exact H2 |]].
  destruct (txndef_data_idle crc16 ex_buffer false MPIPE_Low w H1 H2)
    as (Hr & Hb & Hl & Hp & Hs & _ & Hblk & _ & Hd & _).
  split; [exact Hr |]. split; [exact Hb |]. split; [exact Hl |].
  split; [exact Hp |]. split; [exact Hs |]. split; [exact Hblk | exact Hd].
Defined.

Lemma isr_RxPayload_acknowledges_witness :
  let w := ex_machine MPIPE_Low MPIPE_RxPayload 0 12
             (ram_of ex_buffer [0xD1; 0; 2; 0; 0; 0; 65; 66; 0; 7; 24; 96])
             (DMA_RX (ex_buffer + 6) 6) in
  let w' := mpipe_isr crc16 ex_ackbuf w in
  state (mpipe w) = MPIPE_RxPayload
  /\ priority (mpipe w) <> MPIPE_Broadcast
  /\ (pktbuf (mpipe w) + pktlen (mpipe w) <= ex_ackbuf
      \/ ex_ackbuf + 10 <= pktbuf (mpipe w))
  /\ sequence (mpipe w') = 7
  /\ read_block (ram w') ex_ackbuf 10 = [0xDD; 0; 0; 2; 0; 0; 0; 7; 101; 219]
  /\ dma_cfg (io w') = DMA_TX ex_ackbuf 10
  /\ state (mpipe w') = MPIPE_TxAck_Wait.
Proof.
  intros w w'.
  assert (H1 : state (mpipe w) = MPIPE_RxPayload) by reflexivity.
  assert (H2 : priority (mpipe w) <> MPIPE_Broadcast) by (simpl; discriminate).
  assert (H3 : pktbuf (mpipe w) + pktlen (mpipe w) <= ex_ackbuf
               \/ ex_ackbuf + 10 <= pktbuf (mpipe w))
    by (right; vm_compute; discriminate).
  split; [exact H1 | split; [exact H2 | split; [exact H3 |]]].
  destruct (isr_RxPayload_acknowledges crc16 ex_ackbuf w H1 H2 H3)
    as (Hq & Hblk & _ & _ & Hd & _ & _ & _ & Hs).
  split; [exact Hq |]. split; [exact Hblk |]. split; [exact Hd | exact Hs].
Defined.

(** The same dispatch on a frame with a flipped bit: the status is 0x7F. *)
Example isr_RxPayload_nack :
  let w := ex_machine MPIPE_Low MPIPE_RxPayload 0 12
             (ram_of ex_buffer [0xD1; 0; 2; 0; 0; 0; 65; 67; 0; 7; 24; 96])
             (DMA_RX (ex_buffer + 6) 6) in
  read_block (ram (mpipe_isr crc16 ex_ackbuf w)) ex_ackbuf 10
  = ex_frame [0xDD; 0; 0; 2; 0; 0x7F] 7.
Proof. vm_compute. reflexivity. Qed.

Lemma ack_carries_received_sequence_witness :
  let w := ex_machine MPIPE_Low MPIPE_RxPayload 0 12
             (ram_of ex_buffer [0xD1; 0; 2; 0; 0; 0; 65; 66; 0x12; 0x34; 1; 1])
             (DMA_RX (ex_buffer + 6) 6) in
  let w' := mpipe_isr crc16 ex_ackbuf w in
  state (mpipe w) = MPIPE_RxPayload
  /\ priority (mpipe w) <> MPIPE_Broadcast
  /\ load (ram w') (ex_ackbuf + 6) = 0x12
  /\ load (ram w') (ex_ackbuf + 7) = 0x34
  /\ sequence (mpipe w') = 0x1234
  /\ dma_cfg (io w') = DMA_TX ex_ackbuf 10.
Proof.
  intros w w'.
  assert (H1 : state (mpipe w) = MPIPE_RxPayload) by reflexivity.
  assert (H2 : priority (mpipe w) <> MPIPE_Broadcast) by (simpl; discriminate).
  split; [exact H1 | split; [exact H2 |]].
  destruct (ack_carries_received_sequence crc16 ex_ackbuf w H1 H2)
    as (H6 & H7 & Hq & _ & _ & Hd & _).
  split; [exact H6 |]. split; [exact H7 |]. split; [exact Hq | exact Hd].
Defined.

(** A machine that waits for the acknowledgment of the frame in the caller's
    buffer, with [ack] in the acknowledgment buffer. *)
Lemma isr_RxAck_corrupt_ack_no_resend_witness :
  let w := ex_machine MPIPE_Low MPIPE_RxAck 7 8
             (write_block (ram_of ex_buffer [0xD1; 0; 2; 0; 0; 0; 65; 66; 0; 7; 24; 96])
                ex_ackbuf [0xDD; 0; 0; 2; 0; 0; 0; 7; 101; 218])
             (DMA_RX ex_ackbuf 10) in
  state (mpipe w) = MPIPE_RxAck
  /\ priority (mpipe w) <> MPIPE_Ack
  /\ crc_block crc16 w ex_ackbuf 10 <> 0
  /\ mpipe_isr crc16 ex_ackbuf w = w
  /\ state (mpipe (mpipe_isr crc16 ex_ackbuf w)) = MPIPE_RxAck
  /\ dma_cfg (io (mpipe_isr crc16 ex_ackbuf w)) = DMA_RX ex_ackbuf 10.
Proof.
  intros w.
  assert (H1 : state (mpipe w) = MPIPE_RxAck) by reflexivity.
  assert (H2 : priority (mpipe w) <> MPIPE_Ack) by (simpl; discriminate).
  assert (H3 : crc_block crc16 w ex_ackbuf 10 <> 0) by (vm_compute; discriminate).
  split; [exact H1 | split; [exact H2 | split; [exact H3 |]]].
  destruct (isr_RxAck_corrupt_ack_no_resend crc16 ex_ackbuf w H1 H2 H3)
    as (He & Hs & Hd & _).
  split; [exact He |]. split; [exact Hs | exact Hd].
Defined.

Lemma isr_TxAckDone_nack_no_rearm_witness :
  let w := ex_machine MPIPE_Low MPIPE_TxAck_Done 7 12
             (write_block (ram_of ex_buffer [0xD1; 0; 2; 0; 0; 0; 65; 67; 0; 7; 24; 96])
                ex_ackbuf [0xDD; 0; 0; 2; 0; 0x7F; 0; 7; 145; 226])
             (DMA_TX ex_ackbuf 10) in
  let w' := mpipe_isr crc16 ex_ackbuf w in
  state (mpipe w) = MPIPE_TxAck_Done
  /\ priority (mpipe w) <> MPIPE_Ack
  /\ load (ram w) (ex_ackbuf + 5) <> 0
  /\ state (mpipe w') = MPIPE_RxHeader
  /\ dma_cfg (io w') = DMA_TX ex_ackbuf 10
  /\ pktlen (mpipe w') = 12.
Proof.
  intros w w'.
  assert (H1 : state (mpipe w) = MPIPE_TxAck_Done) by reflexivity.
  assert (H2 : priority (mpipe w) <> MPIPE_Ack) by (simpl; discriminate).
  assert (H3 : load (ram w) (ex_ackbuf + 5) <> 0) by (vm_compute; discriminate).
  split; [exact H1 | split; [exact H2 | split; [exact H3 |]]].
  destruct (isr_TxAckDone_nack_no_rearm crc16 ex_ackbuf w H1 H2 H3)
    as (_ & Hs & Hd & _ & Hl).
  split; [exact Hs |]. split; [exact Hd | exact Hl].
Defined.

Lemma isr_header_requests_remainder_witness :
  let w := ex_machine MPIPE_Low MPIPE_Idle 0 6
             (ram_of ex_buffer [0xD1; 0; 2; 0; 0; 0; 65; 66; 0; 7])
             (DMA_RX ex_buffer 10) in
  let w' := mpipe_isr crc16 ex_ackbuf w in
  (state (mpipe w) = MPIPE_Idle \/ state (mpipe w) = MPIPE_RxHeader)
  /\ pktlen (mpipe w) = 6
  /\ state (mpipe w') = MPIPE_RxPayload
  /\ pktlen (mpipe w') = 12
  /\ dma_cfg (io w') = DMA_RX (ex_buffer + 6) 6.
Proof.
  intros w w'.
  assert (H1 : state (mpipe w) = MPIPE_Idle \/ state (mpipe w) = MPIPE_RxHeader)
    by (left; reflexivity).
  assert (H2 : pktlen (mpipe w) = 6) by reflexivity.
  split; [exact H1 | split; [exact H2 |]].
  destruct (isr_header_requests_remainder crc16 ex_ackbuf w H1 H2)
    as (Hs & _ & Hl & Hd & _).
  split; [exact Hs |]. split; [exact Hl | exact Hd].
Defined.

(** The same dispatch in [MPIPE_RxHeader] on a prefix of payload length 0:
    the four bytes asked for are bytes 6 to 9 of the prefix. *)
Example isr_header_zero_payload :
  let w := ex_machine MPIPE_Low MPIPE_RxHeader 0 6
             (ram_of ex_buffer (ex_frame [0xDD; 0; 0; 2; 0; 0] 7))
             (DMA_RX ex_buffer 10) in
  let w' := mpipe_isr crc16 ex_ackbuf w in
  state (mpipe w') = MPIPE_RxPayload
  /\ pktlen (mpipe w') = 10
  /\ dma_cfg (io w') = DMA_RX (ex_buffer + 6) 4.
Proof. vm_compute. repeat split; reflexivity. Qed.

(** *** The checksum of the examples has zero residue *)

Lemma crc16_bit_shifts (x : Z) : 0 <= x < 32768 -> crc16_bit x = 2 * x.
Proof.
  intros H. unfold crc16_bit.
  assert (E : Z.testbit x 15 = false).
  { destruct (Z.eq_dec x 0) as [-> | Hx]; [reflexivity |].
    apply Z.bits_above_log2; [lia |].
    apply Z.log2_lt_pow2; [lia |]. change (2 ^ 15) with 32768. lia. }
  rewrite E, Z.shiftl_mul_pow2 by lia.
  change (2 ^ 1) with 2. rewrite u16_small; lia.
Qed.

(** The upper byte of the state cancels the upper byte. *)
Lemma lxor_own_upper (c : Z) :
  0 <= c < 65536 ->
  Z.lxor c (Z.shiftl (u8 (ubyte_UPPER c)) 8) = ubyte_LOWER c.
Proof.
  intros H. rewrite (u8_small _ (ubyte_UPPER_range c)).
  unfold ubyte_UPPER, ubyte_LOWER.
  rewrite (Z.mod_small (c / 256))
    by (split; [apply Z.div_pos; lia | apply Z.div_lt_upper_bound; lia]).
  change 256 with (2 ^ 8). rewrite <- Z.shiftr_div_pow2 by lia.
  apply Z.bits_inj'. intros n Hn.
  rewrite Z.lxor_spec.
  destruct (Z.lt_ge_cases n 8) as [Hlt | Hge].
  - rewrite Z.shiftl_spec_low by exact Hlt.
    rewrite Z.mod_pow2_bits_low by exact Hlt.
    apply xorb_false_r.
  - rewrite Z.shiftl_spec, Z.shiftr_spec by lia.
    replace (n - 8 + 8) with n by lia.
    rewrite Z.mod_pow2_bits_high by lia.
    apply xorb_nilpotent.
Qed.

Lemma crc16_own_bytes (c : Z) :
  0 <= c < 65536 ->
  crc16_byte (crc16_byte c (ubyte_UPPER c)) (ubyte_LOWER c) = 0.
Proof.
  intros H.
  pose proof (ubyte_LOWER_range c) as Hl.
  assert (E1 : crc16_byte c (ubyte_UPPER c) = 256 * ubyte_LOWER c).
  { unfold crc16_byte. rewrite lxor_own_upper by exact H.
    repeat match goal with
           | |- context [crc16_bit ?x] => rewrite (crc16_bit_shifts x) by lia
           end.
    lia. }
  rewrite E1. unfold crc16_byte.
  rewrite (u8_small _ Hl), Z.shiftl_mul_pow2 by lia.
  change (2 ^ 8) with 256.
  replace (ubyte_LOWER c * 256) with (256 * ubyte_LOWER c) by lia.
  rewrite Z.lxor_nilpotent. reflexivity.
Qed.

Lemma crc16_bit_range (c : Z) : 0 <= crc16_bit c < 65536.
Proof. unfold crc16_bit. destruct (Z.testbit c 15); apply u16_range. Qed.

Lemma crc16_range (block : list Z) : 0 <= crc16 block < 65536.
Proof.
  unfold crc16.
  assert (H : forall l c, 0 <= c < 65536 -> 0 <= fold_left crc16_byte l c < 65536).
  { induction l as [| b l IH]; intros c Hc; simpl; [exact Hc |].
    apply IH. unfold crc16_byte. apply crc16_bit_range. }
  apply H. lia.
Qed.

Lemma crc16_residue_zero : crc_residue_zero crc16.
Proof.
  intros block. cbv zeta.
  rewrite (u16_small (crc16 block)) by apply crc16_range.
  unfold crc16 at 1. rewrite fold_left_app. simpl fold_left.
  fold (crc16 block). rewrite crc16_own_bytes by apply crc16_range.
  reflexivity.
Qed.

(** *** Instances of the further theorems *)

Lemma rxndef_data_busy_witness :
  let w := ex_machine MPIPE_Low MPIPE_Tx_Wait 7 8
             (ram_of ex_buffer (ex_frame [0xD1; 0; 2; 0; 0; 0; 65; 66] 7))
             (DMA_TX ex_buffer 12) in
  MPIPE_Low <> MPIPE_Ack
  /\ state (mpipe w) <> MPIPE_Idle
  /\ mpipe_rxndef (ex_buffer + 32) false MPIPE_Low w = (Ret (-1), w).
Proof.
  intros w.
  assert (H1 : MPIPE_Low <> MPIPE_Ack) by discriminate.
  assert (H2 : state (mpipe w) <> MPIPE_Idle) by (simpl; discriminate).
  split; [exact H1 | split; [exact H2 |]].
  exact (rxndef_data_busy (ex_buffer + 32) false MPIPE_Low w H1 H2).
Defined.

Lemma rxndef_data_idle_witness :
  let w := ex_machine MPIPE_Low MPIPE_Idle 7 8 (ram_of ex_buffer []) DMA_unset in
  let r := mpipe_rxndef ex_buffer true MPIPE_Broadcast w in
  MPIPE_Broadcast <> MPIPE_Ack
  /\ state (mpipe w) = MPIPE_Idle
  /\ fst r = Ret 0
  /\ bookkeeping (snd r) = (ex_buffer, 6, MPIPE_Broadcast)
  /\ dma_cfg (io (snd r)) = DMA_RX ex_buffer 10.
Proof.
  intros w r.
  assert (H1 : MPIPE_Broadcast <> MPIPE_Ack) by discriminate.
  assert (H2 : state (mpipe w) = MPIPE_Idle) by reflexivity.
  split; [exact H1 | split; [exact H2 |]].
  destruct (rxndef_data_idle ex_buffer true MPIPE_Broadcast w H1 H2)
    as (Hr & Hb & _ & _ & _ & Hd & _).
  split; [exact Hr | split; [exact Hb | exact Hd]].
Defined.

Lemma blocking_send_returns_idle_witness :
  let w0 := ex_machine MPIPE_Low MPIPE_Idle 7 0
              (ram_of ex_buffer [0xD1; 0; 2; 0; 0; 0; 65; 66]) DMA_unset in
  let hs := [interrupt_taken (IRQ_DMA 2); interrupt_taken IRQ_USCI;
             interrupt_taken IRQ_USCI;
             bytes_arrive (ex_frame [0xDD; 0; 0; 2; 0; 0] 7);
             interrupt_taken (IRQ_DMA 2)] in
  let w' := fold_left (fun w h => happen crc16 ex_ackbuf 0 h w) hs
              (snd (mpipe_txndef crc16 ex_buffer false MPIPE_Low w0)) in
  turned_away MPIPE_Low w0 = false
  /\ complete crc16 ex_ackbuf 0 hs (mpipe_txndef crc16 ex_buffer true MPIPE_Low w0)
     = Some (12, w')
  /\ state (mpipe w') = MPIPE_Idle.
Proof.
  intros w0 hs w'.
  assert (H1 : turned_away MPIPE_Low w0 = false) by reflexivity.
  assert (H2 : complete crc16 ex_ackbuf 0 hs
                 (mpipe_txndef crc16 ex_buffer true MPIPE_Low w0) = Some (12, w'))
    by (vm_compute; reflexivity).
  split; [exact H1 | split; [exact H2 |]].
  exact (proj1 (blocking_send_returns_idle crc16 ex_ackbuf 0 hs ex_buffer MPIPE_Low
                  w0 w' 12 H1 H2)).
Defined.

Lemma isr_TxDone_awaits_ack_witness :
  let w := ex_machine MPIPE_Low MPIPE_Tx_Done 7 8
             (ram_of ex_buffer (ex_frame [0xD1; 0; 2; 0; 0; 0; 65; 66] 7))
             (DMA_TX ex_buffer 12) in
  let w' := mpipe_isr crc16 ex_ackbuf w in
  state (mpipe w) = MPIPE_Tx_Done
  /\ priority (mpipe w) <> MPIPE_Broadcast
  /\ state (mpipe w') = MPIPE_RxAck
  /\ dma_cfg (io w') = DMA_RX ex_ackbuf 10.
Proof.
  intros w w'.
  assert (H1 : state (mpipe w) = MPIPE_Tx_Done) by reflexivity.
  assert (H2 : priority (mpipe w) <> MPIPE_Broadcast) by (simpl; discriminate).
  split; [exact H1 | split; [exact H2 |]].
  destruct (isr_TxDone_awaits_ack crc16 ex_ackbuf w H1 H2) as (Hs & Hd & _).
  split; [exact Hs | exact Hd].
Defined.

Lemma isr_send_complete_witness :
  let w := Build_machine
             (Build_mpipe MPIPE_Broadcast MPIPE_Tx_Done 65535 ex_buffer 8
                sub_signull (app_signal 3) sub_signull)
             (ram_of ex_buffer (ex_frame [0xD1; 0; 2; 0; 0; 0; 65; 66] 65535))
             (ex_io (DMA_TX ex_buffer 12)) [] in
  let w' := mpipe_isr crc16 ex_ackbuf w in
  completes_send crc16 ex_ackbuf w = true
  /\ state (mpipe w') = MPIPE_Idle
  /\ sequence (mpipe w') = 0
  /\ signalled w' = [(3, 0)].
Proof.
  intros w w'.
  assert (H1 : completes_send crc16 ex_ackbuf w = true) by reflexivity.
  split; [exact H1 |].
  destruct (isr_send_complete crc16 ex_ackbuf w H1)
    as (Hs & _ & Hq & _ & _ & _ & _ & _ & Hc).
  split; [exact Hs | split; [exact Hq | exact Hc]].
Defined.

Lemma isr_receive_complete_witness :
  let w := Build_machine
             (Build_mpipe MPIPE_Broadcast MPIPE_RxPayload 7 ex_buffer 12
                (app_signal 4) sub_signull sub_signull)
             (ram_of ex_buffer (ex_frame [0xD1; 0; 2; 0; 0; 0; 65; 66] 9))
             (ex_io (DMA_RX (ex_buffer + 6) 6)) [] in
  let w' := mpipe_isr crc16 ex_ackbuf w in
  completes_receive ex_ackbuf w = true
  /\ state (mpipe w') = MPIPE_Idle
  /\ sequence (mpipe w') = 7
  /\ signalled w' = [(4, 0)].
Proof.
  intros w w'.
  assert (H1 : completes_receive ex_ackbuf w = true) by reflexivity.
  split; [exact H1 |].
  destruct (isr_receive_complete crc16 ex_ackbuf w H1)
    as (Hs & _ & Hq & _ & _ & _ & _ & _ & Hc).
  split; [exact Hs | split; [exact Hq | exact Hc]].
Defined.

Lemma send_reaches_RxAck_witness :
  let w := ex_machine MPIPE_Broadcast MPIPE_Idle 7 0
             (ram_of ex_buffer [0xD1; 0; 2; 0; 0; 0; 65; 66]) DMA_unset in
  let w4 := serve_all crc16 ex_ackbuf 0 [IRQ_DMA 2; IRQ_USCI; IRQ_USCI]
              (snd (mpipe_txndef crc16 ex_buffer false MPIPE_Low w)) in
  state (mpipe w) = MPIPE_Idle
  /\ MPIPE_Low <> MPIPE_Ack
  /\ MPIPE_Low <> MPIPE_Broadcast
  /\ dma_iv_is_mpipe 0 2 = true
  /\ state (mpipe w4) = MPIPE_RxAck
  /\ dma_cfg (io w4) = DMA_RX ex_ackbuf 10
  /\ bookkeeping w4 = (ex_buffer, 8, MPIPE_Low).
Proof.
  intros w w4.
  assert (H1 : state (mpipe w) = MPIPE_Idle) by reflexivity.
  assert (H2 : MPIPE_Low <> MPIPE_Ack) by discriminate.
  assert (H3 : MPIPE_Low <> MPIPE_Broadcast) by discriminate.
  assert (H4 : dma_iv_is_mpipe 0 2 = true) by reflexivity.
  split; [exact H1 | split; [exact H2 | split; [exact H3 | split; [exact H4 |]]]].
  destruct (send_reaches_RxAck crc16 ex_ackbuf 0 ex_buffer 2 MPIPE_Low w H1 H2 H3 H4)
    as (_ & _ & _ & Hs & _ & Hd & _ & _ & Hb & _).
  split; [exact Hs | split; [exact Hd | exact Hb]].
Defined.

Lemma broadcast_send_completes_witness :
  let w := ex_machine MPIPE_Low MPIPE_Idle 7 0
             (ram_of ex_buffer [0xD1; 0; 2; 0; 0; 0; 65; 66]) DMA_unset in
  let w4 := serve_all crc16 ex_ackbuf 0 [IRQ_DMA 2; IRQ_USCI; IRQ_USCI]
              (snd (mpipe_txndef crc16 ex_buffer false MPIPE_Broadcast w)) in
  state (mpipe w) = MPIPE_Idle
  /\ dma_iv_is_mpipe 0 2 = true
  /\ state (mpipe w4) = MPIPE_Idle
  /\ sequence (mpipe w4) = 8
  /\ dma_cfg (io w4) = DMA_TX ex_buffer 12.
Proof.
  intros w w4.
  assert (H1 : state (mpipe w) = MPIPE_Idle) by reflexivity.
  assert (H2 : dma_iv_is_mpipe 0 2 = true) by reflexivity.
  split; [exact H1 | split; [exact H2 |]].
  destruct (broadcast_send_completes crc16 ex_ackbuf 0 ex_buffer 2 w H1 H2)
    as (_ & _ & _ & Hs & Hd & _ & _ & Hq & _).
  split; [exact Hs | split; [exact Hq | exact Hd]].
Defined.

Lemma sent_frame_acknowledged_witness :
  let s := ex_machine MPIPE_Low MPIPE_Idle 7 0
             (ram_of ex_buffer [0xD1; 0; 2; 0; 0; 0; 65; 66]) DMA_unset in
  let s' := snd (mpipe_txndef crc16 ex_buffer false MPIPE_Low s) in
  let r := ex_machine MPIPE_Low MPIPE_RxPayload 0 12
             (ram_of ex_buffer (read_block (ram s') ex_buffer 12))
             (DMA_RX (ex_buffer + 6) 6) in
  let r' := mpipe_isr crc16 ex_ackbuf r in
  turned_away MPIPE_Low s = false
  /\ state (mpipe r) = MPIPE_RxPayload
  /\ priority (mpipe r) <> MPIPE_Broadcast
  /\ (pktbuf (mpipe r) + pktlen (mpipe r) <= ex_ackbuf
      \/ ex_ackbuf + 10 <= pktbuf (mpipe r))
  /\ read_block (ram r) (pktbuf (mpipe r)) (pktlen (mpipe r))
     = read_block (ram s') ex_buffer (load (ram s) (ex_buffer + 2) + 6 + 4)
  /\ load (ram r') (ex_ackbuf + 5) = 0
  /\ sequence (mpipe r') = 7.
Proof.
  intros s s' r r'.
  assert (H1 : turned_away MPIPE_Low s = false) by reflexivity.
  assert (H2 : state (mpipe r) = MPIPE_RxPayload) by reflexivity.
  assert (H3 : priority (mpipe r) <> MPIPE_Broadcast) by (simpl; discriminate).
  assert (H4 : pktbuf (mpipe r) + pktlen (mpipe r) <= ex_ackbuf
               \/ ex_ackbuf + 10 <= pktbuf (mpipe r))
    by (right; vm_compute; discriminate).
  assert (H5 : read_block (ram r) (pktbuf (mpipe r)) (pktlen (mpipe r))
               = read_block (ram s') ex_buffer (load (ram s) (ex_buffer + 2) + 6 + 4))
    by (vm_compute; reflexivity).
  split; [exact H1 | split; [exact H2 | split; [exact H3 | split; [exact H4 |]]]].
  split; [exact H5 |].
  destruct (sent_frame_acknowledged crc16 ex_ackbuf ex_buffer false MPIPE_Low s r
              crc16_residue_zero H1 H2 H3 H4 H5) as (Hst & _ & _ & Hq & _).
  split; [exact Hst | exact Hq].
Defined.

(** The acknowledgment is a NACK here (the frame has a flipped bit), and the
    sender completes its send all the same. *)
Lemma acknowledgment_completes_send_witness :
  let r := ex_machine MPIPE_Low MPIPE_RxPayload 0 12
             (ram_of ex_buffer [0xD1; 0; 2; 0; 0; 0; 65; 67; 0; 7; 24; 96])
             (DMA_RX (ex_buffer + 6) 6) in
  let nack := read_block (ram (mpipe_isr crc16 ex_ackbuf r)) ex_ackbuf 10 in
  let s := ex_machine MPIPE_Low MPIPE_RxAck 7 8
             (write_block
                (ram_of ex_buffer [0xD1; 0; 2; 0; 0; 0; 65; 66; 0; 7; 24; 96])
                ex_ackbuf nack)
             (DMA_RX ex_ackbuf 10) in
  let s' := mpipe_isr crc16 ex_ackbuf s in
  state (mpipe r) = MPIPE_RxPayload
  /\ priority (mpipe r) <> MPIPE_Broadcast
  /\ state (mpipe s) = MPIPE_RxAck
  /\ read_block (ram s) ex_ackbuf 10 = nack
  /\ nth 5 nack 0 = 0x7F
  /\ state (mpipe s') = MPIPE_Idle
  /\ sequence (mpipe s') = 8.
Proof.
  intros r nack s s'.
  assert (H1 : state (mpipe r) = MPIPE_RxPayload) by reflexivity.
  assert (H2 : priority (mpipe r) <> MPIPE_Broadcast) by (simpl; discriminate).
  assert (H3 : state (mpipe s) = MPIPE_RxAck) by reflexivity.
  assert (H4 : read_block (ram s) ex_ackbuf 10 = nack) by (vm_compute; reflexivity).
  assert (H5 : nth 5 nack 0 = 0x7F) by (vm_compute; reflexivity).
  split; [exact H1 | split; [exact H2 | split; [exact H3 | split; [exact H4 |]]]].
  split; [exact H5 |].
  destruct (acknowledgment_completes_send crc16 ex_ackbuf r s
              crc16_residue_zero H1 H2 H3 H4) as (_ & Hs & Hq & _).
  split; [exact Hs | exact Hq].
Defined.

Lemma ram_written_only_where_allowed_witness :
  let w := ex_machine MPIPE_Low MPIPE_RxPayload 0 12
             (ram_of ex_buffer [0xD1; 0; 2; 0; 0; 0; 65; 67; 0; 7; 24; 96])
             (DMA_RX (ex_buffer + 6) 6) in
  let o := interrupt (IRQ_DMA 2) in
  priority (mpipe w) <> MPIPE_Ack
  /\ may_write ex_ackbuf o w (ex_buffer + 7) = false
  /\ load (ram (run crc16 ex_ackbuf 0 o w)) (ex_buffer + 7) = 67.
Proof.
  intros w o.
  assert (H1 : priority (mpipe w) <> MPIPE_Ack) by (simpl; discriminate).
  assert (H2 : may_write ex_ackbuf o w (ex_buffer + 7) = false) by reflexivity.
  split; [exact H1 | split; [exact H2 |]].
  exact (ram_written_only_where_allowed crc16 ex_ackbuf 0 o w (ex_buffer + 7) H1 H2).
Defined.

Lemma receive_in_two_transfers_witness :
  let w := ex_machine MPIPE_Low MPIPE_Idle 3 0 (ram_of ex_buffer []) DMA_unset in
  let b1 := [0xD1; 0; 2; 0; 0; 0; 1; 2; 3; 4] in
  let b2 := [65; 66; 0; 7; 24; 96] in
  let w1 := snd (mpipe_rxndef ex_buffer false MPIPE_Low w) in
  let w3 := mpipe_isr crc16 ex_ackbuf (dma_receive b1 w1) in
  let w4 := dma_receive b2 w3 in
  state (mpipe w) = MPIPE_Idle
  /\ MPIPE_Low <> MPIPE_Ack
  /\ length b1 = 10%nat
  /\ Z.of_nat (length b2) = u8 (nth 2 b1 0) + 4
  /\ pktlen (mpipe w3) = 12
  /\ dma_cfg (io w3) = DMA_RX (ex_buffer + 6) 6
  /\ read_block (ram w4) ex_buffer 12 = [0xD1; 0; 2; 0; 0; 0; 65; 66; 0; 7; 24; 96].
Proof.
  intros w b1 b2 w1 w3 w4.
  assert (H1 : state (mpipe w) = MPIPE_Idle) by reflexivity.
  assert (H2 : MPIPE_Low <> MPIPE_Ack) by discriminate.
  assert (H3 : length b1 = 10%nat) by reflexivity.
  assert (H4 : Z.of_nat (length b2) = u8 (nth 2 b1 0) + 4) by reflexivity.
  split; [exact H1 | split; [exact H2 | split; [exact H3 | split; [exact H4 |]]]].
  destruct (receive_in_two_transfers crc16 ex_ackbuf ex_buffer false MPIPE_Low
              b1 b2 w H1 H2 H3 H4) as (_ & _ & Hl & Hd & Hb & _).
  split; [exact Hl | split; [exact Hd | exact Hb]].
Defined.

Lemma good_frame_reception_completes_witness :
  let w := Build_machine
             (Build_mpipe MPIPE_Low MPIPE_RxPayload 0 ex_buffer 12
                (app_signal 4) sub_signull sub_signull)
             (ram_of ex_buffer (ex_frame [0xD1; 0; 2; 0; 0; 0; 65; 66] 7))
             (ex_io (DMA_RX (ex_buffer + 6) 6)) [] in
  let w4 := serve_all crc16 ex_ackbuf 0
              [IRQ_DMA 2; IRQ_DMA 2; IRQ_USCI; IRQ_USCI] w in
  state (mpipe w) = MPIPE_RxPayload
  /\ priority (mpipe w) <> MPIPE_Broadcast
  /\ (pktbuf (mpipe w) + pktlen (mpipe w) <= ex_ackbuf
      \/ ex_ackbuf + 10 <= pktbuf (mpipe w))
  /\ crc_block crc16 w (pktbuf (mpipe w)) (pktlen (mpipe w)) = 0
  /\ dma_iv_is_mpipe 0 2 = true
  /\ state (mpipe w4) = MPIPE_Idle
  /\ sequence (mpipe w4) = 7
  /\ signalled w4 = [(4, 0)].
Proof.
  intros w w4.
  assert (H1 : state (mpipe w) = MPIPE_RxPayload) by reflexivity.
  assert (H2 : priority (mpipe w) <> MPIPE_Broadcast) by (simpl; discriminate).
  assert (H3 : pktbuf (mpipe w) + pktlen (mpipe w) <= ex_ackbuf
               \/ ex_ackbuf + 10 <= pktbuf (mpipe w))
    by (right; vm_compute; discriminate).
  assert (H4 : crc_block crc16 w (pktbuf (mpipe w)) (pktlen (mpipe w)) = 0)
    by (vm_compute; reflexivity).
  assert (H5 : dma_iv_is_mpipe 0 2 = true) by reflexivity.
  split; [exact H1 | split; [exact H2 | split; [exact H3 | split; [exact H4 |]]]].
  split; [exact H5 |].
  destruct (good_frame_reception_completes crc16 ex_ackbuf 0 2 w H1 H2 H3 H4 H5)
    as (_ & _ & _ & Hs & _ & Hq & _ & _ & _ & _ & Hc).
  split; [exact Hs | split; [exact Hq | exact Hc]].
Defined.

Lemma priority_never_Ack_witness :
  let w := ex_machine MPIPE_Low MPIPE_Idle 7 0
             (ram_of ex_buffer [0xD1; 0; 2; 0; 0; 0; 65; 66]) DMA_unset in
  let o := call_txndef ex_buffer false MPIPE_Broadcast in
  priority (mpipe w) <> MPIPE_Ack
  /\ priority (mpipe (run crc16 ex_ackbuf 0 o w)) <> MPIPE_Ack.
Proof.
  intros w o.
  assert (H1 : priority (mpipe w) <> MPIPE_Ack) by (simpl; discriminate).
  split; [exact H1 |].
  exact (priority_never_Ack crc16 ex_ackbuf 0 o w H1).
Defined.

Lemma corrupt_ack_wait_never_returns_witness :
  let w := ex_machine MPIPE_Low MPIPE_RxAck 7 8
             (write_block (ram_of ex_buffer [0xD1; 0; 2; 0; 0; 0; 65; 66; 0; 7; 24; 96])
                ex_ackbuf [0xDD; 0; 0; 2; 0; 0; 0; 7; 101; 218])
             (DMA_RX ex_ackbuf 10) in
  let irqs := [IRQ_DMA 2; IRQ_USCI; IRQ_USCI; IRQ_DMA 2] in
  state (mpipe w) = MPIPE_RxAck
  /\ priority (mpipe w) <> MPIPE_Ack
  /\ crc_block crc16 w ex_ackbuf 10 <> 0
  /\ mpipe_wait crc16 ex_ackbuf 0 (map interrupt_taken irqs) w = None.
Proof.
  intros w irqs.
  assert (H1 : state (mpipe w) = MPIPE_RxAck) by reflexivity.
  assert (H2 : priority (mpipe w) <> MPIPE_Ack) by (simpl; discriminate).
  assert (H3 : crc_block crc16 w ex_ackbuf 10 <> 0) by (vm_compute; discriminate).
  split; [exact H1 | split; [exact H2 | split; [exact H3 |]]].
  exact (corrupt_ack_wait_never_returns crc16 ex_ackbuf 0 irqs w H1 H2 H3).
Defined.

(** *** Where the code departs from the description *)

(** C7 as stated does not hold: the dispatch that acknowledges a received
    frame takes the counter from 5 to the 0 of the frame. *)
Lemma sequence_decrement_counterexample :
  let w := ex_machine MPIPE_Low MPIPE_RxPayload 5 12
             (ram_of ex_buffer (ex_frame [0xD1; 0; 2; 0; 0; 0; 65; 66] 0))
             (DMA_RX (ex_buffer + 6) 6) in
  let w' := run crc16 ex_ackbuf 0 (interrupt (IRQ_DMA 2)) w in
  sequence (mpipe w) = 5
  /\ sequence (mpipe w') = 0
  /\ sequence (mpipe w') < sequence (mpipe w)
  /\ sequence (mpipe w') <> u16 (sequence (mpipe w) + 1).
Proof.
  vm_compute. repeat split; try reflexivity; discriminate.
Qed.

(** C9 as stated does not hold: [mpipe_init] on a session whose counter is 7
    leaves it 7. *)
Lemma mpipe_init_sequence_counterexample :
  let w := ex_machine MPIPE_Broadcast MPIPE_Idle 7 8
             (ram_of ex_buffer (ex_frame [0xD1; 0; 2; 0; 0; 0; 65; 66] 6))
             (DMA_TX ex_buffer 12) in
  sequence (mpipe (snd (mpipe_init w))) = 7
  /\ sequence (mpipe (snd (mpipe_init w))) <> 0.
Proof.
  vm_compute. split; [reflexivity | discriminate].
Qed.

End Mpipe.
